(** * jugglingAR: the per-frame game engine of [JugglingGame.tsx]

    A shallow embedding of the hand tracker ([onResults]), the catch/throw
    resolver and the physics integrator ([updateGame], [checkHandCatch],
    [spawnBall], [respawnBall]) of [src/components/JugglingGame.tsx].

    Conventions of the embedding.
    - A JavaScript number is an exact rational ([Q]); every finite double is
      one, and the arithmetic is taken without rounding.  Timestamps
      ([Date.now()]) and the score are integers ([Z]).
    - The React refs ([ballsRef], [handsRef], ...) are the fields of one
      record [Game] that every function takes and returns.
    - [ballsRef.current] is an array of mutable objects.  It is a [list] of
      balls; a reference to a ball is its position in that list, and a
      mutation through a reference is [modify].  [Array.prototype.filter]
      returns references ([filterRefs]), so that a mutation through
      [heldBalls] is seen in [ballsRef], as in the source.
    - [Math.random()] is a stream [random : nat -> Q]; the field
      [randomCalls] counts the calls made so far.
    - The state variable [targetBallCount] is not a ref: [updateGame] reads
      it through its closure, so it is a parameter of the engine.
    - Outward notifications ([setScore], [onScoreUpdate]) and the canvas
      drawing do not feed back into the state and are left out. *)

From Stdlib Require Import QArith Qminmax ZArith List Lia Bool String.
From Stdlib Require Import Reals Qreals Psatz.
Import ListNotations.
Open Scope Q_scope.

(** ** Numbers *)

(** [a < b] on JavaScript numbers. *)
Definition Qltb (a b : Q) : bool :=
  match a ?= b with Lt => true | _ => false end.

(** [Math.sqrt(d) < r], decided exactly: for [0 <= d] the real square root
    of [d] is below [r] exactly when [r] is positive and [d < r * r]
    (see [sqrt_ltb_real] for the statement over the reals). *)
Definition sqrt_ltb (d r : Q) : bool :=
  Qltb 0 r && Qltb d (r * r).

(** ** Data model ([src/types.ts]) *)

Module HandName.
Inductive t : Type := left | right.

Definition eqb (a b : t) : bool :=
  match a, b with
  | left, left | right, right => true
  | _, _ => false
  end.
End HandName.

(** An object with one slot per hand: [{ left: T; right: T }]. *)
Module Sides.
Record t (T : Type) : Type := mk { left : T; right : T }.
Arguments mk {T} _ _.
Arguments left {T} _.
Arguments right {T} _.

Definition get {T : Type} (s : t T) (h : HandName.t) : T :=
  match h with
  | HandName.left => left s
  | HandName.right => right s
  end.

Definition set {T : Type} (s : t T) (h : HandName.t) (v : T) : t T :=
  match h with
  | HandName.left => mk v (right s)
  | HandName.right => mk (left s) v
  end.
End Sides.

Module Ball.
Record t : Type := mk {
  id : Q;
  x : Q;
  y : Q;
  vx : Q;
  vy : Q;
  radius : Q;
  color : Q;   (* the hue of [hsl(hue, 70%, 60%)] *)
  isActive : bool;
  heldBy : option HandName.t
}.

Definition set_x (v : Q) (b : t) : t :=
  mk (id b) v (y b) (vx b) (vy b) (radius b) (color b) (isActive b) (heldBy b).
Definition set_y (v : Q) (b : t) : t :=
  mk (id b) (x b) v (vx b) (vy b) (radius b) (color b) (isActive b) (heldBy b).
Definition set_vx (v : Q) (b : t) : t :=
  mk (id b) (x b) (y b) v (vy b) (radius b) (color b) (isActive b) (heldBy b).
Definition set_vy (v : Q) (b : t) : t :=
  mk (id b) (x b) (y b) (vx b) v (radius b) (color b) (isActive b) (heldBy b).
Definition set_heldBy (v : option HandName.t) (b : t) : t :=
  mk (id b) (x b) (y b) (vx b) (vy b) (radius b) (color b) (isActive b) v.

(** [b.heldBy === hName] *)
Definition heldByIs (hName : HandName.t) (b : t) : bool :=
  match heldBy b with
  | Some h => HandName.eqb h hName
  | None => false
  end.

(** the truthiness of [b.heldBy] *)
Definition isHeld (b : t) : bool :=
  match heldBy b with
  | Some _ => true
  | None => false
  end.
End Ball.

Module HandPosition.
Record t : Type := mk {
  x : Q;
  y : Q;
  vx : Q;
  vy : Q;
  isPresent : bool
}.
End HandPosition.

Inductive GameState : Type := IDLE | PLAYING | GAME_OVER.

(** The landmark frame handed to [onResults] (the [image] is only drawn). *)
Record Landmark : Type := mkLandmark { lx : Q; ly : Q; lz : Q }.

Record Classification : Type := mkClassification { label : string; confidence : Q }.

Record Results : Type := mkResults {
  multiHandLandmarks : option (list (list Landmark));
  multiHandedness : option (list Classification)
}.

(** The refs of the component. *)
Record Game : Type := mkGame {
  ballsRef : list Ball.t;
  handsRef : Sides.t HandPosition.t;
  gameStateRef : GameState;
  scoreRef : Z;
  lastSpawnTimeRef : Z;
  throwCooldowns : Sides.t Z;
  randomCalls : nat
}.

Definition set_ballsRef (v : list Ball.t) (g : Game) : Game :=
  mkGame v (handsRef g) (gameStateRef g) (scoreRef g) (lastSpawnTimeRef g)
         (throwCooldowns g) (randomCalls g).
Definition set_handsRef (v : Sides.t HandPosition.t) (g : Game) : Game :=
  mkGame (ballsRef g) v (gameStateRef g) (scoreRef g) (lastSpawnTimeRef g)
         (throwCooldowns g) (randomCalls g).
Definition set_scoreRef (v : Z) (g : Game) : Game :=
  mkGame (ballsRef g) (handsRef g) (gameStateRef g) v (lastSpawnTimeRef g)
         (throwCooldowns g) (randomCalls g).
Definition set_lastSpawnTimeRef (v : Z) (g : Game) : Game :=
  mkGame (ballsRef g) (handsRef g) (gameStateRef g) (scoreRef g) v
         (throwCooldowns g) (randomCalls g).
Definition set_throwCooldowns (v : Sides.t Z) (g : Game) : Game :=
  mkGame (ballsRef g) (handsRef g) (gameStateRef g) (scoreRef g)
         (lastSpawnTimeRef g) v (randomCalls g).
Definition set_randomCalls (v : nat) (g : Game) : Game :=
  mkGame (ballsRef g) (handsRef g) (gameStateRef g) (scoreRef g)
         (lastSpawnTimeRef g) (throwCooldowns g) v.

(** ** Physics constants *)

Definition GRAVITY : Q := 0.00015.
Definition BALL_RADIUS : Q := 0.04.
Definition HAND_RADIUS : Q := 0.1.
Definition THROW_THRESHOLD : Q := -0.08.
Definition THROW_COOLDOWN : Z := 400.
Definition MAX_STACK_HEIGHT : nat := 4.

(** ** The array of balls as a store of mutable objects *)

(** [bs.filter(p)] as the references (positions, counted from [i]) of the
    balls it keeps, in array order. *)
Fixpoint filterRefs (p : Ball.t -> bool) (i : nat) (bs : list Ball.t) : list nat :=
  match bs with
  | [] => []
  | b :: rest =>
      if p b then i :: filterRefs p (S i) rest else filterRefs p (S i) rest
  end.

(** Mutation [f] of the object that reference [i] points to. *)
Fixpoint modify (i : nat) (f : Ball.t -> Ball.t) (bs : list Ball.t) : list Ball.t :=
  match bs, i with
  | [], _ => []
  | b :: rest, O => f b :: rest
  | b :: rest, S j => b :: modify j f rest
  end.

(** [refs.forEach((ball, index) => f(index, ball))], the callback mutating
    its ball; [k] is the index of the first element of [refs]. *)
Fixpoint forEachRef (f : nat -> Ball.t -> Ball.t) (k : nat) (refs : list nat)
         (bs : list Ball.t) : list Ball.t :=
  match refs with
  | [] => bs
  | r :: rest => forEachRef f (S k) rest (modify r (f k) bs)
  end.

(** [ballsRef.current.filter(b => b.heldBy === hName)] *)
Definition heldRefs (hName : HandName.t) (bs : list Ball.t) : list nat :=
  filterRefs (Ball.heldByIs hName) 0 bs.

(** [heldBalls[heldBalls.length - 1]] for a non-empty [heldBalls]. *)
Definition lastRef (refs : list nat) : nat := last refs O.

Section Engine.

(** The successive values of [Math.random()]. *)
Variable random : nat -> Q.

(** The state variable [targetBallCount] (line 33), as the closure of
    [updateGame] sees it. *)
Variable targetBallCount : Z.

(** ** [spawnBall] (lines 272-284) *)

(** The object literal of lines 273-283; its four [Math.random()] calls are
    those of [id], [x], [vx] and [color], in this order. *)
Definition newBall (idNow : Z) (n : nat) : Ball.t :=
  {| Ball.id := inject_Z idNow + random n;
     Ball.x := 0.2 + random (n + 1) * 0.6;
     Ball.y := -0.1;
     Ball.vx := (random (n + 2) - 0.5) * 0.005;
     Ball.vy := 0;
     Ball.radius := BALL_RADIUS;
     Ball.color := random (n + 3) * 360;
     Ball.isActive := true;
     Ball.heldBy := None |}.

Definition spawnBall (idNow : Z) (g : Game) : Game :=
  set_randomCalls (randomCalls g + 4)
    (set_ballsRef (ballsRef g ++ [newBall idNow (randomCalls g)]) g).

(** ** [respawnBall] (lines 286-292); it calls [Math.random()] twice. *)

Definition respawnBall (n : nat) (ball : Ball.t) : Ball.t :=
  {| Ball.id := Ball.id ball;
     Ball.x := 0.2 + random n * 0.6;
     Ball.y := -0.2;
     Ball.vx := (random (n + 1) - 0.5) * 0.005;
     Ball.vy := 0;
     Ball.radius := Ball.radius ball;
     Ball.color := Ball.color ball;
     Ball.isActive := Ball.isActive ball;
     Ball.heldBy := None |}.

(** ** [checkHandCatch] (lines 253-270) *)

(** Lines 265-267. *)
Definition caught (handName : HandName.t) (ball : Ball.t) : Ball.t :=
  Ball.set_vy 0 (Ball.set_vx 0 (Ball.set_heldBy (Some handName) ball)).

Definition checkHandCatch (ball : Ball.t) (hand : HandPosition.t)
           (handName : HandName.t) : Ball.t :=
  if negb (HandPosition.isPresent hand) || Ball.isHeld ball then ball
  else
    let dx := Ball.x ball - HandPosition.x hand in
    let dy := (Ball.y ball - HandPosition.y hand) * 0.75 in
    if sqrt_ltb (dx * dx + dy * dy) (Ball.radius ball + HAND_RADIUS / 2) then
      if Qltb (-0.01) (Ball.vy ball) then caught handName ball else ball
    else ball.

(** ** [updateGame] (lines 166-251) *)

(** The throw (lines 192-200) as a mutation of [ballToThrow]. *)
Definition thrown (hand : HandPosition.t) (n : nat) (ball : Ball.t) : Ball.t :=
  let b1 := Ball.set_heldBy None ball in
  let b2 := Ball.set_vy (HandPosition.vy hand * 0.25 - 0.005) b1 in
  let b3 := Ball.set_vx (HandPosition.vx hand * 0.25) b2 in
  Ball.set_vx (Ball.vx b3 + (random n - 0.5) * 0.005) b3.

(** The test of line 188. *)
Definition throwIntent (now : Z) (hName : HandName.t) (g : Game) : bool :=
  Qltb (HandPosition.vy (Sides.get (handsRef g) hName)) THROW_THRESHOLD
  && (now - Sides.get (throwCooldowns g) hName >? THROW_COOLDOWN)%Z.

(** Lines 190-207. *)
Definition throwTop (now : Z) (hName : HandName.t) (heldBalls : list nat)
           (g : Game) : Game :=
  let hand := Sides.get (handsRef g) hName in
  let ballToThrow := lastRef heldBalls in
  let g1 := set_ballsRef
              (modify ballToThrow (thrown hand (randomCalls g)) (ballsRef g)) g in
  let g2 := set_randomCalls (randomCalls g1 + 1) g1 in
  let g3 := set_throwCooldowns (Sides.set (throwCooldowns g2) hName now) g2 in
  set_scoreRef (scoreRef g3 + 10)%Z g3.

(** The callback of [currentHeld.forEach] (lines 212-220). *)
Definition place (hand : HandPosition.t) (index : nat) (ball : Ball.t) : Ball.t :=
  let stackIndex := Nat.min index MAX_STACK_HEIGHT in
  let offset := inject_Z (Z.of_nat stackIndex) * (Ball.radius ball * 1.2) in
  let b1 := Ball.set_x (HandPosition.x hand) ball in
  let b2 := Ball.set_y (HandPosition.y hand - 0.05 - offset) b1 in
  let b3 := Ball.set_vx (HandPosition.vx hand) b2 in
  Ball.set_vy (HandPosition.vy hand) b3.

(** The callback of [['left', 'right'].forEach] (lines 178-225). *)
Definition processHand (now : Z) (hName : HandName.t) (g : Game) : Game :=
  let hand := Sides.get (handsRef g) hName in
  let heldBalls := heldRefs hName (ballsRef g) in
  if HandPosition.isPresent hand && (0 <? List.length heldBalls)%nat then
    let g1 := if throwIntent now hName g
              then throwTop now hName heldBalls g
              else g in
    let currentHeld := heldRefs hName (ballsRef g1) in
    set_ballsRef (forEachRef (place hand) 0 currentHeld (ballsRef g1)) g1
  else if negb (HandPosition.isPresent hand) && (0 <? List.length heldBalls)%nat then
    set_ballsRef
      (forEachRef (fun _ b => Ball.set_heldBy None b) 0 heldBalls (ballsRef g)) g
  else g.

(** Wall bounces (lines 236-239). *)
Definition bounce (ball : Ball.t) : Ball.t :=
  if Qltb (Ball.x ball) (Ball.radius ball)
     || Qltb (1 - Ball.radius ball) (Ball.x ball) then
    let b1 := Ball.set_vx (Ball.vx ball * -0.8) ball in
    Ball.set_x (Qmax (Ball.radius b1) (Qmin (1 - Ball.radius b1) (Ball.x b1))) b1
  else ball.

(** Lines 231-233. *)
Definition integrate (ball : Ball.t) : Ball.t :=
  let b1 := Ball.set_vy (Ball.vy ball + GRAVITY) ball in
  let b2 := Ball.set_y (Ball.y b1 + Ball.vy b1) b1 in
  Ball.set_x (Ball.x b2 + Ball.vx b2) b2.

(** Catch checks (lines 242-243). *)
Definition catchChecks (hands : Sides.t HandPosition.t) (ball : Ball.t) : Ball.t :=
  checkHandCatch
    (checkHandCatch ball (Sides.left hands) HandName.left)
    (Sides.right hands) HandName.right.

(** The body of [ballsRef.current.forEach] (lines 228-250) for one ball;
    [n] is the number of [Math.random()] calls made before it.  The floor
    check is inside the [if (!ball.heldBy)] of line 230, which was decided
    before the catch checks. *)
Definition stepBall (hands : Sides.t HandPosition.t) (n : nat) (ball : Ball.t)
  : Ball.t * nat :=
  if Ball.isHeld ball then (ball, n)
  else
    let b := catchChecks hands (bounce (integrate ball)) in
    if Qltb 1.2 (Ball.y b) then (respawnBall n b, (n + 2)%nat) else (b, n).

Fixpoint physics (hands : Sides.t HandPosition.t) (n : nat) (bs : list Ball.t)
  : list Ball.t * nat :=
  match bs with
  | [] => ([], n)
  | b :: rest =>
      let (b', n') := stepBall hands n b in
      let (rest', n'') := physics hands n' rest in
      (b' :: rest', n'')
  end.

(** The test of line 172. *)
Definition spawnDue (now : Z) (g : Game) : bool :=
  (Z.of_nat (List.length (ballsRef g)) <? targetBallCount)%Z
  && (now - lastSpawnTimeRef g >? 500)%Z.

(** Lines 171-175. *)
Definition spawnStep (now idNow : Z) (g : Game) : Game :=
  if spawnDue now g then set_lastSpawnTimeRef now (spawnBall idNow g) else g.

(** Lines 177-225: the two hands, left then right. *)
Definition resolver (now : Z) (g : Game) : Game :=
  processHand now HandName.right (processHand now HandName.left g).

(** Lines 227-250. *)
Definition physicsStep (g : Game) : Game :=
  let (bs, n) := physics (handsRef g) (randomCalls g) (ballsRef g) in
  set_randomCalls n (set_ballsRef bs g).

(** [now] is the [Date.now()] of line 169 and [idNow] the one of line 274. *)
Definition updateGame (now idNow : Z) (g : Game) : Game :=
  match gameStateRef g with
  | PLAYING => physicsStep (resolver now (spawnStep now idNow g))
  | _ => g
  end.

(** ** [onResults] (lines 52-92) *)

(** [{ ...hand, isPresent: false }] (lines 53-54). *)
Definition absent (hand : HandPosition.t) : HandPosition.t :=
  {| HandPosition.x := HandPosition.x hand;
     HandPosition.y := HandPosition.y hand;
     HandPosition.vx := HandPosition.vx hand;
     HandPosition.vy := HandPosition.vy hand;
     HandPosition.isPresent := false |}.

Definition isLeft (c : Classification) : bool := String.eqb (label c) "Left".

(** The object [pos] of lines 71-77. *)
Definition detected (prev : Sides.t HandPosition.t) (c : Classification)
           (palmPoint : Landmark) : HandPosition.t :=
  let prevHand := if isLeft c then Sides.left prev else Sides.right prev in
  {| HandPosition.x := lx palmPoint;
     HandPosition.y := ly palmPoint;
     HandPosition.vx := lx palmPoint - HandPosition.x prevHand;
     HandPosition.vy := ly palmPoint - HandPosition.y prevHand;
     HandPosition.isPresent := true |}.

(** The loop of lines 57-84; [landmarks] and [handedness] are what is left
    of the two arrays, [next] the current [nextLeft] and [nextRight].  [None]
    is the [TypeError] of reading [.label] or [.x] of [undefined]. *)
Fixpoint detections (prev : Sides.t HandPosition.t)
         (landmarks : list (list Landmark)) (handedness : list Classification)
         (next : Sides.t HandPosition.t) : option (Sides.t HandPosition.t) :=
  match landmarks with
  | [] => Some next
  | lms :: landmarks' =>
      match handedness, nth_error lms 9 with
      | classification :: handedness', Some palmPoint =>
          let pos := detected prev classification palmPoint in
          detections prev landmarks' handedness'
            (if isLeft classification
             then Sides.mk pos (Sides.right next)
             else Sides.mk (Sides.left next) pos)
      | _, _ => None
      end
  end.

(** Lines 53-88: the next value of [handsRef.current]. *)
Definition trackHands (results : Results) (prev : Sides.t HandPosition.t)
  : option (Sides.t HandPosition.t) :=
  let next := Sides.mk (absent (Sides.left prev)) (absent (Sides.right prev)) in
  match multiHandLandmarks results, multiHandedness results with
  | Some landmarks, Some handedness => detections prev landmarks handedness next
  | _, _ => Some next
  end.

(** [draw] runs [updateGame] when the canvas and its context exist. *)
Definition draw (canvas : bool) (now idNow : Z) (g : Game) : Game :=
  if canvas then updateGame now idNow g else g.

End Engine.

(** The initial value of the state variable [targetBallCount] (line 33). *)
Definition initialTargetBallCount : Z := 3.

(** [onResults] is created once: [useCallback] has an empty dependency list
    (line 92).  The [draw] it calls, and the [updateGame] that this [draw]
    calls, are those of the first render of the component, in which
    [targetBallCount] has its initial value. *)
Definition onResults (random : nat -> Q) (canvas : bool) (now idNow : Z)
           (results : Results) (g : Game) : option Game :=
  match trackHands results (handsRef g) with
  | Some hands =>
      Some (draw random initialTargetBallCount canvas now idNow (set_handsRef hands g))
  | None => None
  end.

(** ** Reading the store *)

(** The same traversal as [forEachRef] over [filterRefs p], written as one
    pass over the array: the balls that satisfy [p] receive [f] with their
    rank among those balls, counted from [k]; the others are kept. *)
Fixpoint mapRank (p : Ball.t -> bool) (f : nat -> Ball.t -> Ball.t) (k : nat)
         (bs : list Ball.t) : list Ball.t :=
  match bs with
  | [] => []
  | b :: rest =>
      if p b then f k b :: mapRank p f (S k) rest else b :: mapRank p f k rest
  end.

(** The stack index of the ball at position [i]: the number of balls of
    hand [hName] before it in the array. *)
Definition rank (hName : HandName.t) (bs : list Ball.t) (i : nat) : nat :=
  List.length (filter (Ball.heldByIs hName) (firstn i bs)).

(** [heldBy] of the ball at position [i], when there is one. *)
Definition heldByAt (bs : list Ball.t) (i : nat) : option (option HandName.t) :=
  option_map Ball.heldBy (nth_error bs i).

(** The test that guards lines 190-207: the conjunction of the tests of
    lines 185 and 188. *)
Definition throwOccurs (now : Z) (hName : HandName.t) (g : Game) : bool :=
  HandPosition.isPresent (Sides.get (handsRef g) hName)
  && (0 <? List.length (heldRefs hName (ballsRef g)))%nat
  && (Qltb (HandPosition.vy (Sides.get (handsRef g) hName)) THROW_THRESHOLD
      && (now - Sides.get (throwCooldowns g) hName >? THROW_COOLDOWN)%Z).

(** The four conditions of a throw, in the words of the specification. *)
Definition throwCondition (now : Z) (h : HandName.t) (g : Game) : Prop :=
  HandPosition.isPresent (Sides.get (handsRef g) h) = true
  /\ (exists i, heldByAt (ballsRef g) i = Some (Some h))
  /\ HandPosition.vy (Sides.get (handsRef g) h) < THROW_THRESHOLD
  /\ (now - Sides.get (throwCooldowns g) h > THROW_COOLDOWN)%Z.

(** ** Reading a landmark frame *)

(** The side a detection is attributed to: the left hand for the label
    ["Left"], the right hand for any other label (lines 65 and 79-83). *)
Definition sideOf (c : Classification) : HandName.t :=
  if isLeft c then HandName.left else HandName.right.

(** The detections the loop of [onResults] goes through: the landmark sets
    with their classifications, in the order of the source. *)
Definition detectionsOf (results : Results) : list (list Landmark * Classification) :=
  match multiHandLandmarks results, multiHandedness results with
  | Some landmarks, Some handedness => combine landmarks handedness
  | _, _ => []
  end.

(** The landmarks of the last detection attributed to hand [h], if any. *)
Fixpoint lastDetection (h : HandName.t) (dets : list (list Landmark * Classification))
  : option (list Landmark) :=
  match dets with
  | [] => None
  | (lms, c) :: rest =>
      match lastDetection h rest with
      | Some later => Some later
      | None => if HandName.eqb (sideOf c) h then Some lms else None
      end
  end.

(** A hand seen at [palm], one frame after [prevHand]. *)
Definition tracked (prevHand : HandPosition.t) (palm : Landmark) : HandPosition.t :=
  {| HandPosition.x := lx palm;
     HandPosition.y := ly palm;
     HandPosition.vx := lx palm - HandPosition.x prevHand;
     HandPosition.vy := ly palm - HandPosition.y prevHand;
     HandPosition.isPresent := true |}.

(** A frame in which every landmark set has its landmark 9 and its
    classification. *)
Definition wellFormed (results : Results) : Prop :=
  match multiHandLandmarks results, multiHandedness results with
  | Some landmarks, Some handedness =>
      (List.length landmarks <= List.length handedness)%nat
      /\ forall lms, In lms landmarks -> (9 < List.length lms)%nat
  | _, _ => True
  end.

(** The [maxNumHands] option that the component gives to the tracker with
    [hands.setOptions] (line 111). *)
Definition maxNumHands : nat := 2.

(** A frame as the tracker so configured hands it to [onResults], its only
    caller (line 117): at most [maxNumHands] landmark sets. *)
Definition delivered (results : Results) : Prop :=
  match multiHandLandmarks results with
  | Some landmarks => (List.length landmarks <= maxNumHands)%nat
  | None => True
  end.

(** The frame cut to its first two detections, in the order of the source. *)
Definition firstTwo (results : Results) : Results :=
  mkResults (option_map (firstn maxNumHands) (multiHandLandmarks results))
            (option_map (firstn maxNumHands) (multiHandedness results)).

(** ** The session: [startGame] and a run of landmark frames *)

Definition set_gameStateRef (v : GameState) (g : Game) : Game :=
  mkGame (ballsRef g) (handsRef g) v (scoreRef g) (lastSpawnTimeRef g)
         (throwCooldowns g) (randomCalls g).

(** What one call of [onResults] receives and reads: the landmark frame,
    whether the canvas and its context exist, the [Date.now()] of line 169
    and the one of line 274. *)
Record Frame : Type := mkFrame {
  canvas : bool;
  now : Z;
  idNow : Z;
  results : Results
}.

Section Session.

Variable random : nat -> Q.
Variable targetBallCount : Z.

(** The test of line 353. *)
Definition offScreen (b : Ball.t) : bool :=
  Qltb 1 (Ball.y b) || Qltb (Ball.y b) (-0.2).

(** [ballsRef.current.forEach] of lines 352-354; [n] counts the calls of
    [Math.random()]. *)
Fixpoint resetBalls (n : nat) (bs : list Ball.t) : list Ball.t * nat :=
  match bs with
  | [] => ([], n)
  | b :: rest =>
      let (b', n') :=
        if offScreen b then (respawnBall random n b, (n + 2)%nat) else (b, n) in
      let (rest', n'') := resetBalls n' rest in
      (b' :: rest', n'')
  end.

(** [startGame] (lines 344-355). *)
Definition startGame (g : Game) : Game :=
  let g1 := set_scoreRef 0 g in
  let g2 := set_gameStateRef PLAYING g1 in
  let (bs, n) := resetBalls (randomCalls g2) (ballsRef g2) in
  set_randomCalls n (set_ballsRef bs g2).

(** [onResults] with the [targetBallCount] of its closure as a parameter
    (see [onResults_frameStep]). *)
Definition frameStep (f : Frame) (g : Game) : option Game :=
  match trackHands (results f) (handsRef g) with
  | Some hands =>
      Some (draw random targetBallCount (canvas f) (now f) (idNow f)
                 (set_handsRef hands g))
  | None => None
  end.

(** The calls of [onResults] for a sequence of landmark frames, up to the
    first one that throws. *)
Fixpoint run (frames : list Frame) (g : Game) : option Game :=
  match frames with
  | [] => Some g
  | f :: rest =>
      match frameStep f g with
      | Some g' => run rest g'
      | None => None
      end
  end.

End Session.

(** What never changes in a ball. *)
Definition identity (b : Ball.t) : Q * Q * Q * bool :=
  (Ball.id b, Ball.radius b, Ball.color b, Ball.isActive b).

(** The number of balls a hand holds. *)
Definition heldCount (h : HandName.t) (bs : list Ball.t) : nat :=
  List.length (heldRefs h bs).

(** ** The coach service ([src/services/geminiService.ts]) *)

Module Coach.

Local Open Scope string_scope.

(** What awaiting [sendMessage] or [generateContent] gives: an exception, or
    a response whose [text] may be undefined. *)
Inductive Outcome : Type :=
| Throws
| Returns (text : option string).

(** [text || fallback]: the empty string and [undefined] are falsy. *)
Definition orElse (text : option string) (fallback : string) : string :=
  match text with
  | Some t => if String.eqb t "" then fallback else t
  | None => fallback
  end.

Section Service.

(** The chat object of the client library. *)
Variable Chat : Type.

(** [process.env.API_KEY || ''] (line 6). *)
Variable apiKey : string.

(** [ai.chats.create] (line 14): a chat, or an exception. *)
Variable create : option Chat.

(** [chatSession.sendMessage({ message })] (line 36). *)
Variable sendMessage : Chat -> string -> Outcome.

(** [ai.models.generateContent] (line 47), for the prompt it is given. *)
Variable generateContent : string -> Outcome.

(** [initializeCoachChat] (lines 13-28): the chat it assigns to the module
    variable [chatSession]; [None] is the exception of [create], which
    leaves the variable as it was. *)
Definition initializeCoachChat : option Chat := create.

(** [sendCoachMessage] (lines 30-41): the value the promise resolves with
    ([None] when it rejects), and [chatSession] afterwards. *)
Definition sendCoachMessage (message : string) (chatSession : option Chat)
  : option string * option Chat :=
  if String.eqb apiKey "" then
    (Some "API Key missing. Cannot connect to Coach.", chatSession)
  else
    let ready :=
      match chatSession with
      | Some chat => Some chat
      | None => initializeCoachChat
      end in
    match ready with
    | Some chat =>
        (Some (match sendMessage chat message with
               | Returns text => orElse text "Keep it up!"
               | Throws => "Oops, I dropped my train of thought. Try again!"
               end),
         Some chat)
    | None => (None, chatSession)
    end.

(** [getGameSummary] (lines 43-54); [prompt] is the template string of line
    48 for the score and the duration. *)
Definition getGameSummary (prompt : string) : string :=
  if String.eqb apiKey "" then "Great job!"
  else
    match generateContent prompt with
    | Returns text => orElse text "Good game!"
    | Throws => "Nice juggling session!"
    end.

End Service.

End Coach.

(** Whether the session is in the Playing state (the test of line 167). *)
Definition playing (g : Game) : bool :=
  match gameStateRef g with
  | PLAYING => true
  | _ => false
  end.

(** ** Sample data for the concrete sessions below *)

Module Sample.
(** A [Math.random()] that always answers one half. *)
Definition random (n : nat) : Q := 0.5.

(** The 21 landmarks of a hand whose landmark 9 is at [(px, py)]. *)
Definition hand21 (px py : Q) : list Landmark :=
  repeat (mkLandmark 0 0 0) 9 ++ mkLandmark px py 0 :: repeat (mkLandmark 0 0 0) 11.

(** A frame with one detection, a left hand with its palm at [(px, py)]. *)
Definition leftAt (px py : Q) : Results :=
  mkResults (Some [hand21 px py]) (Some [mkClassification "Left" 0.9]).

Definition idle : HandPosition.t := HandPosition.mk 0 0 0 0 false.

Definition ballA : Ball.t := Ball.mk 1 0.1 0.5 0 0 BALL_RADIUS 0 true None.
Definition ballB : Ball.t := Ball.mk 2 0.5 0.45 0 0 BALL_RADIUS 0 true None.
Definition ballC : Ball.t := Ball.mk 3 0.9 0.1 0 0 BALL_RADIUS 0 true None.

(** Playing, three free balls, no hand seen yet. *)
Definition start : Game :=
  mkGame [ballA; ballB; ballC] (Sides.mk idle idle) PLAYING 0 0 (Sides.mk 0%Z 0%Z) 0.

(** Two balls in the left hand (and [ballC] free). *)
Definition heldA : Ball.t :=
  Ball.mk 1 0.1 0.45 0 0 BALL_RADIUS 0 true (Some HandName.left).
Definition heldB : Ball.t :=
  Ball.mk 2 0.1 0.402 0 0 BALL_RADIUS 0 true (Some HandName.left).

(** The left hand moving sideways, and flicking up. *)
Definition sideways : HandPosition.t := HandPosition.mk 0.1 0.5 (-0.4) 0 true.
Definition flick : HandPosition.t := HandPosition.mk 0.1 0.4 0 (-0.1) true.

Definition withLeft (hand : HandPosition.t) : Game :=
  mkGame [heldA; heldB; ballC] (Sides.mk hand idle) PLAYING 0 0 (Sides.mk 0%Z 0%Z) 0.

Definition holding : Game := withLeft sideways.
Definition throwing : Game := withLeft flick.
Definition losing : Game := withLeft (absent sideways).

(** Playing with no ball yet. *)
Definition empty : Game :=
  mkGame [] (Sides.mk idle idle) PLAYING 0 0 (Sides.mk 0%Z 0%Z) 0.

(** A free ball under the floor. *)
Definition fallen : Ball.t := Ball.mk 5 0.5 1.3 0 0.01 BALL_RADIUS 0 true None.
Definition falling : Game :=
  mkGame [fallen] (Sides.mk idle idle) PLAYING 0 0 (Sides.mk 0%Z 0%Z) 0.

(** A ball that leaves the area on the left. *)
Definition leaving : Ball.t := Ball.mk 4 0.03 0.5 (-0.02) 0 BALL_RADIUS 0 true None.

(** One run of [updateGame] at time [now], as [onResults] reaches it. *)
Definition frame (now : Z) (g : Game) : Game :=
  updateGame random initialTargetBallCount now now g.

(** A frame with two detections: left, right. *)
Definition twoHands : Results :=
  mkResults (Some [hand21 0.2 0.5; hand21 0.8 0.5])
            (Some [mkClassification "Left" 0.9; mkClassification "Right" 0.9]).
End Sample.

(** Sample data for the further properties. *)
Module Demo.

(** A detection with five landmarks only. *)
Definition shortHand : list Landmark := repeat (mkLandmark 0 0 0) 5.

Definition malformed : Results :=
  mkResults (Some [shortHand]) (Some [mkClassification "Left" 0.9]).

(** A frame without any hand. *)
Definition noHands : Results := mkResults (Some []) (Some []).

Definition frameAt (t : Z) (r : Results) : Frame := mkFrame true t t r.

(** A session that has not been started: two balls left from before, one
    of them under the screen and in a hand. *)
Definition parked : Game :=
  mkGame [Ball.mk 1 0.3 1.1 0 0 BALL_RADIUS 0 true (Some HandName.left);
          Ball.mk 2 0.6 0.5 0 0 BALL_RADIUS 0 true None]
         (Sides.mk Sample.idle Sample.idle) IDLE 70 0 (Sides.mk 0%Z 0%Z) 0.

(** The three frames of the session of [Sample.start]: the left hand shows
    up at (0.5, 0.5), moves to (0.1, 0.5), then flicks up to (0.1, 0.4). *)
Definition session : list Frame :=
  [frameAt 1000 (Sample.leftAt 0.5 0.5);
   frameAt 1016 (Sample.leftAt 0.1 0.5);
   frameAt 1032 (Sample.leftAt 0.1 0.4)].

(** Two frames without a hand, 300 and 400 ms after time 0. *)
Definition blind : list Frame := [frameAt 300 noHands; frameAt 400 noHands].

(** The left hand flicking up 300 ms after time 0. *)
Definition earlyFlick : list Frame := [frameAt 300 (Sample.leftAt 0.1 0.3)].

End Demo.

(** * Properties *)

(** ** Comparisons *)

Lemma Qltb_lt (a b : Q) : Qltb a b = true <-> a < b.
Proof.
  unfold Qltb. rewrite Qlt_alt. destruct (a ?= b); split; congruence.
Qed.

Lemma Qltb_ge (a b : Q) : Qltb a b = false <-> b <= a.
Proof.
  split; intro H.
  - apply Qnot_lt_le. intro L. apply Qltb_lt in L. congruence.
  - destruct (Qltb a b) eqn:E; [| reflexivity].
    apply Qltb_lt in E. exfalso. exact (Qlt_not_le _ _ E H).
Qed.

Lemma sqrt_ltb_spec (d r : Q) : sqrt_ltb d r = true <-> 0 < r /\ d < r * r.
Proof.
  unfold sqrt_ltb. rewrite andb_true_iff, !Qltb_lt. tauto.
Qed.

Lemma HandName_eqb_eq (a b : HandName.t) : HandName.eqb a b = true <-> a = b.
Proof.
  destruct a, b; simpl; split; congruence.
Qed.

Lemma heldByIs_true (h : HandName.t) (b : Ball.t) :
  Ball.heldByIs h b = true <-> Ball.heldBy b = Some h.
Proof.
  unfold Ball.heldByIs. destruct (Ball.heldBy b) as [h'|].
  - rewrite HandName_eqb_eq. split; congruence.
  - split; congruence.
Qed.

Lemma heldByIs_false (h : HandName.t) (b : Ball.t) :
  Ball.heldByIs h b = false <-> Ball.heldBy b <> Some h.
Proof.
  rewrite <- heldByIs_true. destruct (Ball.heldByIs h b); split; congruence.
Qed.

Lemma isHeld_false (b : Ball.t) : Ball.isHeld b = false <-> Ball.heldBy b = None.
Proof.
  unfold Ball.isHeld. destruct (Ball.heldBy b); split; congruence.
Qed.

(** ** The store *)

Lemma modify_length (i : nat) (f : Ball.t -> Ball.t) (bs : list Ball.t) :
  List.length (modify i f bs) = List.length bs.
Proof.
  revert i. induction bs as [|b rest IH]; intros [|j]; simpl; auto.
Qed.

Lemma nth_error_modify_same (i : nat) (f : Ball.t -> Ball.t) (bs : list Ball.t) :
  nth_error (modify i f bs) i = option_map f (nth_error bs i).
Proof.
  revert i. induction bs as [|b rest IH]; intros [|j]; simpl; auto.
Qed.

Lemma nth_error_modify_other (i j : nat) (f : Ball.t -> Ball.t) (bs : list Ball.t) :
  i <> j -> nth_error (modify i f bs) j = nth_error bs j.
Proof.
  revert i j. induction bs as [|b rest IH]; intros [|i] [|j] H; simpl; auto.
  - congruence.
Qed.

Lemma modify_app_here (pre rest : list Ball.t) (b : Ball.t) (f : Ball.t -> Ball.t) :
  modify (List.length pre) f (pre ++ b :: rest) = (pre ++ [f b]) ++ rest.
Proof.
  induction pre as [|a pre IH]; simpl.
  - reflexivity.
  - now rewrite IH.
Qed.

(** [filter] followed by [forEach] is one ranked pass over the array. *)
Lemma forEachRef_filterRefs (p : Ball.t -> bool) (f : nat -> Ball.t -> Ball.t)
      (rest pre : list Ball.t) (k : nat) :
  forEachRef f k (filterRefs p (List.length pre) rest) (pre ++ rest)
  = pre ++ mapRank p f k rest.
Proof.
  revert pre k. induction rest as [|b rest IH]; intros pre k; simpl.
  - reflexivity.
  - destruct (p b); simpl.
    + rewrite modify_app_here.
      replace (S (List.length pre)) with (List.length (pre ++ [f k b]))
        by (rewrite length_app; simpl; lia).
      rewrite IH, <- app_assoc. reflexivity.
    + replace (S (List.length pre)) with (List.length (pre ++ [b]))
        by (rewrite length_app; simpl; lia).
      replace (pre ++ b :: rest) with ((pre ++ [b]) ++ rest)
        by (now rewrite <- app_assoc).
      rewrite IH, <- app_assoc. reflexivity.
Qed.

Lemma forEachRef_heldRefs (h : HandName.t) (f : nat -> Ball.t -> Ball.t)
      (bs : list Ball.t) :
  forEachRef f 0 (heldRefs h bs) bs = mapRank (Ball.heldByIs h) f 0 bs.
Proof.
  exact (forEachRef_filterRefs (Ball.heldByIs h) f bs [] 0).
Qed.

Lemma mapRank_length (p : Ball.t -> bool) (f : nat -> Ball.t -> Ball.t)
      (bs : list Ball.t) (k : nat) :
  List.length (mapRank p f k bs) = List.length bs.
Proof.
  revert k. induction bs as [|b rest IH]; intro k; simpl.
  - reflexivity.
  - destruct (p b); simpl; now rewrite IH.
Qed.

(** What the ranked pass leaves at position [i]. *)
Lemma nth_error_mapRank (p : Ball.t -> bool) (f : nat -> Ball.t -> Ball.t)
      (bs : list Ball.t) (k i : nat) :
  nth_error (mapRank p f k bs) i
  = option_map
      (fun b => if p b
                then f (k + List.length (filter p (firstn i bs)))%nat b
                else b)
      (nth_error bs i).
Proof.
  revert k i. induction bs as [|b rest IH]; intros k [|i]; simpl; try reflexivity.
  - destruct (p b); simpl; [| reflexivity].
    now rewrite Nat.add_0_r.
  - destruct (p b) eqn:E; simpl; rewrite IH.
    + destruct (nth_error rest i); simpl; [| reflexivity].
      now rewrite Nat.add_succ_r.
    + reflexivity.
Qed.

Lemma filterRefs_In (p : Ball.t -> bool) (bs : list Ball.t) (i j : nat) :
  In j (filterRefs p i bs)
  <-> exists b, (i <= j)%nat /\ nth_error bs (j - i) = Some b /\ p b = true.
Proof.
  revert i j. induction bs as [|b rest IH]; intros i j; simpl.
  - split; [tauto |]. intros (c & _ & H & _). destruct (j - i)%nat; discriminate.
  - assert (R : In j (filterRefs p (S i) rest)
                <-> exists c, (i < j)%nat /\ nth_error rest (j - S i) = Some c
                              /\ p c = true).
    { rewrite IH. split; intros (c & A & B & C); exists c; repeat split; auto; lia. }
    assert (G : (i = j /\ p b = true) \/ In j (filterRefs p (S i) rest)
                <-> exists c, (i <= j)%nat
                              /\ nth_error (b :: rest) (j - i) = Some c
                              /\ p c = true).
    { rewrite R. split.
      - intros [[-> Hb] | (c & A & B & C)].
        + exists b. rewrite Nat.sub_diag. simpl. auto.
        + exists c. replace (j - i)%nat with (S (j - S i)) by lia. simpl.
          repeat split; auto; lia.
      - intros (c & A & B & C).
        destruct (Nat.eq_dec i j) as [-> | N].
        + rewrite Nat.sub_diag in B. simpl in B. left. split; congruence.
        + right. exists c. replace (j - i)%nat with (S (j - S i)) in B by lia.
          simpl in B. repeat split; auto; lia. }
    rewrite <- G. destruct (p b) eqn:E; simpl.
    + split.
      * intros [-> | H]; auto.
      * intros [[-> _] | H]; auto.
    + split; auto. intros [[_ H] | H]; [discriminate | exact H].
Qed.

(** The last reference of a non-empty [filter] is the last position of the
    array whose ball satisfies [p]. *)
Lemma lastRef_filterRefs (p : Ball.t -> bool) (bs : list Ball.t) (i : nat) :
  filterRefs p i bs <> [] ->
  exists b, (i <= lastRef (filterRefs p i bs))%nat
            /\ nth_error bs (lastRef (filterRefs p i bs) - i) = Some b
            /\ p b = true
            /\ forall j c, (lastRef (filterRefs p i bs) - i < j)%nat ->
                           nth_error bs j = Some c -> p c = false.
Proof.
  revert i. induction bs as [|b rest IH]; intros i H; simpl in *.
  - congruence.
  - specialize (IH (S i)).
    remember (filterRefs p (S i) rest) as l eqn:E. destruct l as [|r rs].
    + destruct (p b) eqn:Eb; [| congruence].
      exists b. unfold lastRef. simpl. rewrite Nat.sub_diag. simpl.
      repeat split; auto.
      intros [|j] c Hj Hc; [lia |]. simpl in Hc.
      destruct (p c) eqn:Ec; [| reflexivity]. exfalso.
      assert (I : In (S i + j)%nat (filterRefs p (S i) rest)).
      { apply filterRefs_In. exists c. repeat split; auto; try lia.
        now replace (S i + j - S i)%nat with j by lia. }
      rewrite <- E in I. exact I.
    + destruct IH as (c & A & B & C & D); [congruence |].
      assert (L : lastRef (if p b then i :: r :: rs else r :: rs)
                  = lastRef (r :: rs)).
      { destruct (p b); reflexivity. }
      rewrite L. exists c.
      replace (lastRef (r :: rs) - i)%nat
        with (S (lastRef (r :: rs) - S i)) by lia.
      simpl. repeat split; auto; try lia.
      intros [|j] d Hj Hd; [lia |]. simpl in Hd.
      apply (D j d); auto. lia.
Qed.

Lemma heldRefs_nonempty (h : HandName.t) (bs : list Ball.t) :
  heldRefs h bs <> [] <-> exists i, heldByAt bs i = Some (Some h).
Proof.
  unfold heldRefs, heldByAt. split.
  - intro N. destruct (lastRef_filterRefs _ bs 0 N) as (b & _ & B & C & _).
    eexists. rewrite B. simpl. f_equal. now apply heldByIs_true.
  - intros (i & H) E.
    destruct (nth_error bs i) as [b|] eqn:B; [| discriminate].
    simpl in H. injection H as H.
    assert (I : In i (filterRefs (Ball.heldByIs h) 0 bs)).
    { apply filterRefs_In. exists b. rewrite Nat.sub_0_r.
      repeat split; auto; try lia. now apply heldByIs_true. }
    rewrite E in I. exact I.
Qed.

Lemma length_pos_nonempty (A : Type) (l : list A) :
  (0 <? List.length l)%nat = true <-> l <> [].
Proof.
  destruct l; simpl; split; intro H; try discriminate; try reflexivity.
  exfalso; now apply H.
Qed.

(** The top of the stack of hand [h]: the last position of the array whose
    ball is held by [h]. *)
Lemma lastRef_heldRefs (h : HandName.t) (bs : list Ball.t) :
  heldRefs h bs <> [] ->
  heldByAt bs (lastRef (heldRefs h bs)) = Some (Some h)
  /\ forall j, (lastRef (heldRefs h bs) < j)%nat -> heldByAt bs j <> Some (Some h).
Proof.
  intro N. unfold heldRefs in *.
  destruct (lastRef_filterRefs _ bs 0 N) as (b & _ & B & C & D).
  rewrite Nat.sub_0_r in *. unfold heldByAt. split.
  - rewrite B. simpl. f_equal. now apply heldByIs_true.
  - intros j Hj. destruct (nth_error bs j) as [c|] eqn:Ec; simpl; [| congruence].
    intro E. injection E as E. apply heldByIs_true in E.
    rewrite (D j c Hj Ec) in E. discriminate.
Qed.

Lemma mapRank_none (p : Ball.t -> bool) (f : nat -> Ball.t -> Ball.t)
      (bs : list Ball.t) (i k : nat) :
  filterRefs p i bs = [] -> mapRank p f k bs = bs.
Proof.
  revert i k. induction bs as [|b rest IH]; intros i k H; simpl in *.
  - reflexivity.
  - destruct (p b); [discriminate |]. f_equal. now apply (IH (S i)).
Qed.

Lemma rank_cons (h : HandName.t) (b : Ball.t) (bs : list Ball.t) (i : nat) :
  rank h (b :: bs) (S i)
  = ((if Ball.heldByIs h b then 1 else 0) + rank h bs i)%nat.
Proof.
  unfold rank. simpl. now destruct (Ball.heldByIs h b).
Qed.

(** The stack index only depends on who holds the balls. *)
Lemma rank_ext (h : HandName.t) (bs cs : list Ball.t) (i : nat) :
  map (Ball.heldByIs h) bs = map (Ball.heldByIs h) cs ->
  rank h bs i = rank h cs i.
Proof.
  revert cs i. induction bs as [|b rest IH]; intros [|c cs] i H; simpl in H;
    try discriminate.
  - reflexivity.
  - injection H as Hb Hr. destruct i as [|i]; [reflexivity |].
    rewrite !rank_cons, Hb. f_equal. now apply IH.
Qed.

Lemma map_mapRank (A : Type) (g : Ball.t -> A) (p : Ball.t -> bool)
      (f : nat -> Ball.t -> Ball.t) (bs : list Ball.t) (k : nat) :
  (forall n b, g (f n b) = g b) ->
  map g (mapRank p f k bs) = map g bs.
Proof.
  intro F. revert k. induction bs as [|b rest IH]; intro k; simpl.
  - reflexivity.
  - destruct (p b); simpl; rewrite IH; [rewrite F |]; reflexivity.
Qed.

Section Resolver.

Variable random : nat -> Q.

Lemma throwOccurs_true (now : Z) (h : HandName.t) (g : Game) :
  throwOccurs now h g = true <-> throwCondition now h g.
Proof.
  unfold throwOccurs, throwCondition.
  rewrite !andb_true_iff, Qltb_lt, Z.gtb_gt, length_pos_nonempty, heldRefs_nonempty.
  tauto.
Qed.

Lemma throwOccurs_false (now : Z) (h : HandName.t) (g : Game) :
  throwOccurs now h g = false <-> ~ throwCondition now h g.
Proof.
  rewrite <- throwOccurs_true. destruct (throwOccurs now h g); split; congruence.
Qed.

(** [processHand], field by field. *)

Lemma processHand_ballsRef (now : Z) (h : HandName.t) (g : Game) :
  ballsRef (processHand random now h g)
  = let hand := Sides.get (handsRef g) h in
    if HandPosition.isPresent hand then
      mapRank (Ball.heldByIs h) (place hand) 0
        (if throwOccurs now h g
         then modify (lastRef (heldRefs h (ballsRef g)))
                     (thrown random hand (randomCalls g)) (ballsRef g)
         else ballsRef g)
    else mapRank (Ball.heldByIs h) (fun _ b => Ball.set_heldBy None b) 0 (ballsRef g).
Proof.
  unfold processHand, throwOccurs, throwIntent. cbv zeta.
  destruct (HandPosition.isPresent (Sides.get (handsRef g) h)); simpl.
  - destruct (0 <? List.length (heldRefs h (ballsRef g)))%nat eqn:H; simpl.
    + destruct (Qltb _ _ && _); simpl; now rewrite forEachRef_heldRefs.
    + symmetry. apply mapRank_none with (i := O).
      destruct (heldRefs h (ballsRef g)) eqn:E; [exact E | discriminate].
  - destruct (0 <? List.length (heldRefs h (ballsRef g)))%nat eqn:H; simpl.
    + now rewrite forEachRef_heldRefs.
    + symmetry. apply mapRank_none with (i := O).
      destruct (heldRefs h (ballsRef g)) eqn:E; [exact E | discriminate].
Qed.

Lemma processHand_scoreRef (now : Z) (h : HandName.t) (g : Game) :
  scoreRef (processHand random now h g)
  = if throwOccurs now h g then (scoreRef g + 10)%Z else scoreRef g.
Proof.
  unfold processHand, throwOccurs, throwIntent. cbv zeta.
  destruct (HandPosition.isPresent (Sides.get (handsRef g) h)); simpl.
  - destruct (0 <? List.length (heldRefs h (ballsRef g)))%nat; simpl.
    + destruct (Qltb _ _ && _); reflexivity.
    + reflexivity.
  - destruct (0 <? List.length (heldRefs h (ballsRef g)))%nat; reflexivity.
Qed.

Lemma processHand_throwCooldowns (now : Z) (h : HandName.t) (g : Game) :
  throwCooldowns (processHand random now h g)
  = if throwOccurs now h g
    then Sides.set (throwCooldowns g) h now
    else throwCooldowns g.
Proof.
  unfold processHand, throwOccurs, throwIntent. cbv zeta.
  destruct (HandPosition.isPresent (Sides.get (handsRef g) h)); simpl.
  - destruct (0 <? List.length (heldRefs h (ballsRef g)))%nat; simpl.
    + destruct (Qltb _ _ && _); reflexivity.
    + reflexivity.
  - destruct (0 <? List.length (heldRefs h (ballsRef g)))%nat; reflexivity.
Qed.

Lemma processHand_handsRef (now : Z) (h : HandName.t) (g : Game) :
  handsRef (processHand random now h g) = handsRef g.
Proof.
  unfold processHand, throwIntent. cbv zeta.
  destruct (HandPosition.isPresent (Sides.get (handsRef g) h)); simpl.
  - destruct (0 <? List.length (heldRefs h (ballsRef g)))%nat; simpl.
    + destruct (Qltb _ _ && _); reflexivity.
    + reflexivity.
  - destruct (0 <? List.length (heldRefs h (ballsRef g)))%nat; reflexivity.
Qed.

Lemma processHand_length (now : Z) (h : HandName.t) (g : Game) :
  List.length (ballsRef (processHand random now h g)) = List.length (ballsRef g).
Proof.
  rewrite processHand_ballsRef. cbv zeta.
  destruct (HandPosition.isPresent _); rewrite mapRank_length; [| reflexivity].
  destruct (throwOccurs now h g); [apply modify_length | reflexivity].
Qed.

(** What [processHand] leaves at position [i] of the array. *)
Lemma processHand_ball (now : Z) (h : HandName.t) (g : Game) (i : nat) (b : Ball.t) :
  nth_error (ballsRef g) i = Some b ->
  nth_error (ballsRef (processHand random now h g)) i
  = Some
      (let hand := Sides.get (handsRef g) h in
       if Ball.heldByIs h b then
         if HandPosition.isPresent hand then
           if throwOccurs now h g && (i =? lastRef (heldRefs h (ballsRef g)))%nat
           then thrown random hand (randomCalls g) b
           else place hand (rank h (ballsRef (processHand random now h g)) i) b
         else Ball.set_heldBy None b
       else b).
Proof.
  intro B. cbv zeta.
  assert (R : forall bs1,
             rank h (mapRank (Ball.heldByIs h)
                             (place (Sides.get (handsRef g) h)) 0 bs1) i
             = List.length (filter (Ball.heldByIs h) (firstn i bs1))).
  { intro bs1. unfold rank at 1. fold (rank h bs1 i). apply rank_ext.
    apply map_mapRank. reflexivity. }
  rewrite processHand_ballsRef. cbv zeta.
  destruct (HandPosition.isPresent (Sides.get (handsRef g) h)) eqn:P.
  - rewrite R, nth_error_mapRank. simpl.
    destruct (throwOccurs now h g) eqn:T; simpl.
    + apply throwOccurs_true in T. destruct T as (_ & H & _).
      apply heldRefs_nonempty in H.
      destruct (lastRef_heldRefs h (ballsRef g) H) as (A & _).
      destruct (Nat.eqb_spec i (lastRef (heldRefs h (ballsRef g)))) as [E | E].
      * rewrite <- E in *. rewrite nth_error_modify_same, B. simpl.
        unfold heldByAt in A. rewrite B in A. simpl in A. injection A as A.
        apply heldByIs_true in A. rewrite A.
        replace (Ball.heldByIs h (thrown random (Sides.get (handsRef g) h)
                                         (randomCalls g) b)) with false
          by (now destruct h).
        reflexivity.
      * rewrite nth_error_modify_other, B by congruence. reflexivity.
    + rewrite B. reflexivity.
  - rewrite nth_error_mapRank, B. reflexivity.
Qed.

Lemma processHand_ball_none (now : Z) (h : HandName.t) (g : Game) (i : nat) :
  nth_error (ballsRef g) i = None ->
  nth_error (ballsRef (processHand random now h g)) i = None.
Proof.
  intro H. apply nth_error_None. rewrite processHand_length.
  now apply nth_error_None.
Qed.

(** C1 (as amended).  For the hand [h] that [updateGame] is processing, in
    the state [g] it finds: when the hand is present, holds a ball, moves
    up faster than [THROW_THRESHOLD] and its last throw is more than
    [THROW_COOLDOWN] ms old, exactly one ball is released, the one that is
    last in the array among the balls of that hand (the top of the stack
    that the code displays), the last-throw time of the hand becomes [now]
    and the score grows by 10; when one of the four conditions fails, the
    score and the last-throw times are unchanged and a present hand
    releases no ball. *)
Theorem throw_iff_conditions (now : Z) (h : HandName.t) (g : Game) :
  (throwCondition now h g ->
     (scoreRef (processHand random now h g) = scoreRef g + 10)%Z
     /\ Sides.get (throwCooldowns (processHand random now h g)) h = now
     /\ exists i,
          heldByAt (ballsRef g) i = Some (Some h)
          /\ (forall j, (i < j)%nat -> heldByAt (ballsRef g) j <> Some (Some h))
          /\ heldByAt (ballsRef (processHand random now h g)) i = Some None
          /\ forall j, j <> i ->
               heldByAt (ballsRef (processHand random now h g)) j
               = heldByAt (ballsRef g) j)
  /\ (~ throwCondition now h g ->
        scoreRef (processHand random now h g) = scoreRef g
        /\ throwCooldowns (processHand random now h g) = throwCooldowns g
        /\ (HandPosition.isPresent (Sides.get (handsRef g) h) = true ->
            forall j, heldByAt (ballsRef (processHand random now h g)) j
                      = heldByAt (ballsRef g) j)).
Proof.
  assert (K : forall j, j <> lastRef (heldRefs h (ballsRef g))
                        \/ throwOccurs now h g = false ->
                HandPosition.isPresent (Sides.get (handsRef g) h) = true ->
                heldByAt (ballsRef (processHand random now h g)) j
                = heldByAt (ballsRef g) j).
  { intros j N P. unfold heldByAt.
    destruct (nth_error (ballsRef g) j) as [b|] eqn:B.
    - rewrite (processHand_ball now h g j b B). cbv zeta. rewrite P. simpl.
      replace (throwOccurs now h g && (j =? lastRef (heldRefs h (ballsRef g)))%nat)
        with false.
      + now destruct (Ball.heldByIs h b).
      + destruct N as [N | N]; [| now rewrite N].
        apply Nat.eqb_neq in N. rewrite N. now rewrite andb_false_r.
    - now rewrite processHand_ball_none. }
  split.
  - intro T. pose proof T as (P & H & _). apply throwOccurs_true in T.
    rewrite processHand_scoreRef, processHand_throwCooldowns, T.
    split; [reflexivity |]. split; [now destruct h |].
    apply heldRefs_nonempty in H.
    destruct (lastRef_heldRefs h (ballsRef g) H) as (A & B).
    exists (lastRef (heldRefs h (ballsRef g))).
    split; [exact A |]. split; [exact B |]. split.
    + unfold heldByAt in *.
      destruct (nth_error (ballsRef g) (lastRef (heldRefs h (ballsRef g))))
        as [b|] eqn:E; [| discriminate].
      rewrite (processHand_ball now h g _ b E). cbv zeta.
      simpl in A. injection A as A. apply heldByIs_true in A.
      rewrite A, P, T, Nat.eqb_refl. reflexivity.
    + intros j N. apply K; auto.
  - intro N. apply throwOccurs_false in N.
    rewrite processHand_scoreRef, processHand_throwCooldowns, N.
    repeat split. intros P j. apply K; auto.
Qed.

End Resolver.

(** ** The catch test *)

(** The test of line 262 is the comparison of the real square root with the
    catch radius. *)
Lemma sqrt_ltb_real (d r : Q) :
  0 <= d -> (sqrt_ltb d r = true <-> (sqrt (Q2R d) < Q2R r)%R).
Proof.
  intro D. rewrite sqrt_ltb_spec.
  apply Qle_Rle in D. rewrite RMicromega.Q2R_0 in D. split.
  - intros [P L]. apply Qlt_Rlt in P, L. rewrite RMicromega.Q2R_0 in P.
    rewrite Q2R_mult in L.
    rewrite <- (sqrt_square (Q2R r)) by lra.
    apply sqrt_lt_1_alt. lra.
  - intro H. pose proof (sqrt_pos (Q2R d)) as S.
    split; apply Rlt_Qlt.
    + rewrite RMicromega.Q2R_0. lra.
    + rewrite Q2R_mult, <- (sqrt_sqrt (Q2R d) D). nra.
Qed.

Lemma sum_squares_nonneg (a b : Q) : 0 <= a * a + b * b.
Proof. nra. Qed.

Section Physics.

Variable random : nat -> Q.

(** [checkHandCatch] either returns at once or catches. *)
Lemma checkHandCatch_cases (ball : Ball.t) (hand : HandPosition.t) (h : HandName.t) :
  checkHandCatch ball hand h = ball
  \/ (Ball.heldBy ball = None
      /\ HandPosition.isPresent hand = true
      /\ checkHandCatch ball hand h = caught h ball).
Proof.
  unfold checkHandCatch.
  destruct (HandPosition.isPresent hand); simpl; [| now left].
  destruct (Ball.isHeld ball) eqn:H; [now left |].
  apply isHeld_false in H.
  destruct (sqrt_ltb _ _); [| now left].
  destruct (Qltb _ _); [right | left]; auto.
Qed.


(** C5.  A free ball whose integrated [x] is outside [radius, 1 - radius]
    has [vx] multiplied by -0.8 and [x] clamped: to [radius] on the left,
    to [1 - radius] on the right, when [radius <= 0.5]; and whether it
    bounces or not, with [radius <= 0.5] the [x] of the ball after the wall
    test is in [radius, 1 - radius]. *)
Theorem wall_bounce (ball : Ball.t) :
  let b := integrate ball in
  (Ball.x b < Ball.radius b \/ 1 - Ball.radius b < Ball.x b ->
     Ball.vx (bounce b) = Ball.vx b * -0.8
     /\ Ball.x (bounce b)
        = Qmax (Ball.radius b) (Qmin (1 - Ball.radius b) (Ball.x b))
     /\ (Ball.radius b <= 0.5 ->
         (Ball.x b < Ball.radius b -> Ball.x (bounce b) == Ball.radius b)
         /\ (1 - Ball.radius b < Ball.x b ->
             Ball.x (bounce b) == 1 - Ball.radius b)))
  /\ (Ball.radius ball <= 0.5 ->
      Ball.radius ball <= Ball.x (bounce b) <= 1 - Ball.radius ball)
  /\ Ball.radius (bounce b) = Ball.radius ball.
Proof.
  intro b.
  assert (R : Ball.radius b = Ball.radius ball) by reflexivity.
  split; [| split].
  - intro O.
    assert (T : Qltb (Ball.x b) (Ball.radius b)
                || Qltb (1 - Ball.radius b) (Ball.x b) = true).
    { apply orb_true_iff. rewrite !Qltb_lt. exact O. }
    unfold bounce. rewrite T. cbn.
    split; [reflexivity |]. split; [reflexivity |].
    intro H. split; intro L.
    + rewrite Q.min_r by lra. apply Q.max_l. lra.
    + rewrite Q.min_l by lra. apply Q.max_r. lra.
  - intro H. unfold bounce.
    destruct (Qltb (Ball.x b) (Ball.radius b)
              || Qltb (1 - Ball.radius b) (Ball.x b)) eqn:T.
    + cbn. split.
      * apply Q.le_max_l.
      * apply Q.max_lub; [lra | apply Q.le_min_l].
    + apply orb_false_iff in T. destruct T as [A B].
      apply Qltb_ge in A, B. rewrite R in *. split; assumption.
  - unfold bounce. destruct (_ || _); reflexivity.
Qed.

End Physics.

(** ** The physics pass *)

Section PhysicsPass.

Variable random : nat -> Q.
Variable targetBallCount : Z.

Lemma physics_length (hands : Sides.t HandPosition.t) (bs : list Ball.t) (n : nat) :
  List.length (fst (physics random hands n bs)) = List.length bs.
Proof.
  revert n. induction bs as [|b rest IH]; intro n; simpl.
  - reflexivity.
  - destruct (stepBall random hands n b) as [b' n'].
    specialize (IH n'). destruct (physics random hands n' rest) as [rest' n''].
    simpl in *. now rewrite IH.
Qed.

(** Every ball goes through [stepBall] once, at its own position. *)
Lemma physics_nth (hands : Sides.t HandPosition.t) (bs : list Ball.t)
      (n i : nat) (b : Ball.t) :
  nth_error bs i = Some b ->
  exists m, nth_error (fst (physics random hands n bs)) i
            = Some (fst (stepBall random hands m b)).
Proof.
  revert n i. induction bs as [|a rest IH]; intros n [|i] H; simpl in H;
    try discriminate.
  - injection H as ->. exists n. simpl.
    destruct (stepBall random hands n b) as [b' n'].
    destruct (physics random hands n' rest) as [rest' n'']. reflexivity.
  - simpl. destruct (stepBall random hands n a) as [a' n'].
    destruct (IH n' i H) as (m & E). exists m.
    destruct (physics random hands n' rest) as [rest' n'']. exact E.
Qed.

Lemma physics_nth_none (hands : Sides.t HandPosition.t) (bs : list Ball.t)
      (n i : nat) :
  nth_error bs i = None -> nth_error (fst (physics random hands n bs)) i = None.
Proof.
  intro H. apply nth_error_None. rewrite physics_length. now apply nth_error_None.
Qed.

Lemma physicsStep_ballsRef (g : Game) :
  ballsRef (physicsStep random g)
  = fst (physics random (handsRef g) (randomCalls g) (ballsRef g)).
Proof.
  unfold physicsStep. now destruct (physics random _ _ _).
Qed.

Lemma physicsStep_scoreRef (g : Game) :
  scoreRef (physicsStep random g) = scoreRef g.
Proof.
  unfold physicsStep. now destruct (physics random _ _ _).
Qed.

Lemma catchChecks_cases (hands : Sides.t HandPosition.t) (ball : Ball.t) :
  catchChecks hands ball = ball
  \/ exists h, Ball.heldBy ball = None
               /\ HandPosition.isPresent (Sides.get hands h) = true
               /\ catchChecks hands ball = caught h ball.
Proof.
  unfold catchChecks.
  destruct (checkHandCatch_cases ball (Sides.left hands) HandName.left)
    as [E | (F & P & E)]; rewrite E.
  - destruct (checkHandCatch_cases ball (Sides.right hands) HandName.right)
      as [E' | (F' & P' & E')]; rewrite E'.
    + now left.
    + right. exists HandName.right. auto.
  - right. exists HandName.left. repeat split; auto.
    destruct (checkHandCatch_cases (caught HandName.left ball)
                                   (Sides.right hands) HandName.right)
      as [E' | (F' & _)]; [exact E' | discriminate].
Qed.

Lemma catchChecks_y (hands : Sides.t HandPosition.t) (ball : Ball.t) :
  Ball.y (catchChecks hands ball) = Ball.y ball.
Proof.
  destruct (catchChecks_cases hands ball) as [E | (h & _ & _ & E)];
    now rewrite E.
Qed.

Lemma bounce_y (ball : Ball.t) : Ball.y (bounce ball) = Ball.y ball.
Proof.
  unfold bounce. now destruct (_ || _).
Qed.

(** [stepBall] on a held ball and on a free ball. *)
Lemma stepBall_held (hands : Sides.t HandPosition.t) (n : nat) (b : Ball.t) :
  Ball.heldBy b <> None -> fst (stepBall random hands n b) = b.
Proof.
  intro H. unfold stepBall, Ball.isHeld.
  destruct (Ball.heldBy b); [reflexivity | congruence].
Qed.

Lemma stepBall_free (hands : Sides.t HandPosition.t) (n : nat) (b : Ball.t) :
  Ball.heldBy b = None ->
  fst (stepBall random hands n b)
  = let c := catchChecks hands (bounce (integrate b)) in
    if Qltb 1.2 (Ball.y (integrate b)) then respawnBall random n c else c.
Proof.
  intro H. unfold stepBall. apply isHeld_false in H. rewrite H. cbv zeta.
  rewrite catchChecks_y, bounce_y. now destruct (Qltb _ _).
Qed.

(** C6.  A free ball whose [y] is above 1.2 after integration is respawned
    by the physics pass of the same frame: it stays at its position of the
    array, with [y = -0.2], which is above the visible area, and with
    [heldBy] cleared; the pass keeps the size of the array, and a frame
    never makes the array shorter. *)
Theorem fallen_ball_is_respawned (now idNow : Z) (g : Game) :
  (forall i b,
      nth_error (ballsRef g) i = Some b ->
      Ball.heldBy b = None ->
      1.2 < Ball.y (integrate b) ->
      exists b',
        nth_error (ballsRef (physicsStep random g)) i = Some b'
        /\ Ball.y b' = -0.2
        /\ Ball.y b' < 0
        /\ Ball.heldBy b' = None
        /\ Ball.id b' = Ball.id b)
  /\ List.length (ballsRef (physicsStep random g)) = List.length (ballsRef g)
  /\ (List.length (ballsRef g)
      <= List.length (ballsRef (updateGame random targetBallCount now idNow g)))%nat.
Proof.
  split; [| split].
  - intros i b B F Y. rewrite physicsStep_ballsRef.
    destruct (physics_nth (handsRef g) (ballsRef g) (randomCalls g) i b B)
      as (m & E).
    rewrite E, (stepBall_free _ _ _ F). cbv zeta.
    apply Qltb_lt in Y. rewrite Y.
    eexists. split; [reflexivity |]. cbn. repeat split.
    destruct (catchChecks_cases (handsRef g) (bounce (integrate b)))
      as [C | (h & _ & _ & C)]; rewrite C; cbn;
      unfold bounce; now destruct (_ || _).
  - rewrite physicsStep_ballsRef. apply physics_length.
  - unfold updateGame. destruct (gameStateRef g); try lia.
    rewrite physicsStep_ballsRef, physics_length. unfold resolver.
    rewrite !processHand_length. unfold spawnStep.
    destruct (spawnDue targetBallCount now g); [| lia].
    cbn. rewrite length_app. lia.
Qed.

End PhysicsPass.

(** ** The resolver, ball by ball *)

Lemma map_ext_nth_error (A B : Type) (f : A -> B) (l1 l2 : list A) :
  (forall i, option_map f (nth_error l1 i) = option_map f (nth_error l2 i)) ->
  map f l1 = map f l2.
Proof.
  revert l2. induction l1 as [|a l1 IH]; intros [|c l2] H; simpl.
  - reflexivity.
  - specialize (H O). discriminate.
  - specialize (H O). discriminate.
  - f_equal.
    + specialize (H O). simpl in H. congruence.
    + apply IH. intro i. exact (H (S i)).
Qed.

Lemma filterRefs_ext (p : Ball.t -> bool) (bs cs : list Ball.t) (i : nat) :
  map p bs = map p cs -> filterRefs p i bs = filterRefs p i cs.
Proof.
  revert cs i. induction bs as [|b rest IH]; intros [|c cs] i H; simpl in *;
    try discriminate.
  - reflexivity.
  - injection H as Hb Hr. rewrite Hb, (IH cs (S i) Hr). reflexivity.
Qed.

Lemma filterRefs_app (p : Ball.t -> bool) (bs cs : list Ball.t) (i : nat) :
  filterRefs p i (bs ++ cs)
  = filterRefs p i bs ++ filterRefs p (i + List.length bs) cs.
Proof.
  revert i. induction bs as [|b rest IH]; intro i; simpl.
  - now rewrite Nat.add_0_r.
  - rewrite IH. replace (S i + List.length rest)%nat
      with (i + S (List.length rest))%nat by lia.
    now destruct (p b).
Qed.

Section ResolverBalls.

Variable random : nat -> Q.

(** The four things [processHand] can do to a ball. *)
Lemma processHand_ball_cases (now : Z) (h : HandName.t) (g : Game) (i : nat)
      (b' : Ball.t) :
  nth_error (ballsRef (processHand random now h g)) i = Some b' ->
  exists b,
    nth_error (ballsRef g) i = Some b
    /\ ((Ball.heldBy b <> Some h /\ b' = b)
        \/ (Ball.heldBy b = Some h
            /\ throwCondition now h g
            /\ i = lastRef (heldRefs h (ballsRef g))
            /\ b' = thrown random (Sides.get (handsRef g) h) (randomCalls g) b)
        \/ (Ball.heldBy b = Some h
            /\ HandPosition.isPresent (Sides.get (handsRef g) h) = true
            /\ b' = place (Sides.get (handsRef g) h)
                          (rank h (ballsRef (processHand random now h g)) i) b)
        \/ (Ball.heldBy b = Some h
            /\ HandPosition.isPresent (Sides.get (handsRef g) h) = false
            /\ b' = Ball.set_heldBy None b)).
Proof.
  intro H. destruct (nth_error (ballsRef g) i) as [b|] eqn:B.
  - exists b. split; [reflexivity |].
    rewrite (processHand_ball random now h g i b B) in H. cbv zeta in H.
    injection H as H.
    destruct (Ball.heldByIs h b) eqn:E.
    + apply heldByIs_true in E. right.
      destruct (HandPosition.isPresent (Sides.get (handsRef g) h)) eqn:P.
      * destruct (throwOccurs now h g) eqn:T; simpl in H.
        -- destruct (Nat.eqb_spec i (lastRef (heldRefs h (ballsRef g)))) as [L | L].
           ++ left. apply throwOccurs_true in T. auto.
           ++ right. left. auto.
        -- right. left. auto.
      * right. right. auto.
    + apply heldByIs_false in E. left. auto.
  - rewrite (processHand_ball_none random now h g i B) in H. discriminate.
Qed.

(** Processing one hand does not change which balls the other hand holds. *)
Lemma processHand_keeps_other (now : Z) (h h' : HandName.t) (g : Game) :
  h <> h' ->
  map (Ball.heldByIs h) (ballsRef (processHand random now h' g))
  = map (Ball.heldByIs h) (ballsRef g).
Proof.
  intro N. apply map_ext_nth_error. intro i.
  destruct (nth_error (ballsRef (processHand random now h' g)) i) as [b'|] eqn:E.
  - destruct (processHand_ball_cases now h' g i b' E)
      as (b & B & [(_ & ->) | [(K & _ & _ & ->) | [(K & _ & ->) | (K & _ & ->)]]]);
      rewrite B; simpl; try reflexivity; f_equal;
      unfold Ball.heldByIs; simpl; rewrite K;
      destruct h, h'; try reflexivity; congruence.
  - apply nth_error_None in E. rewrite processHand_length in E.
    apply nth_error_None in E. now rewrite E.
Qed.

Lemma resolver_handsRef (now : Z) (g : Game) :
  handsRef (resolver random now g) = handsRef g.
Proof.
  unfold resolver. now rewrite !processHand_handsRef.
Qed.

Lemma resolver_length (now : Z) (g : Game) :
  List.length (ballsRef (resolver random now g)) = List.length (ballsRef g).
Proof.
  unfold resolver. now rewrite !processHand_length.
Qed.

(** The four things the resolver (left hand, then right hand) can do to a
    ball: leave a ball that no hand holds; throw it; carry it with the hand;
    drop it because the hand is lost. *)
Lemma resolver_ball_cases (now : Z) (g : Game) (i : nat) (b' : Ball.t) :
  nth_error (ballsRef (resolver random now g)) i = Some b' ->
  exists b,
    nth_error (ballsRef g) i = Some b
    /\ ((Ball.heldBy b = None /\ b' = b)
        \/ exists h,
            Ball.heldBy b = Some h
            /\ ((HandPosition.isPresent (Sides.get (handsRef g) h) = true
                 /\ HandPosition.vy (Sides.get (handsRef g) h) < THROW_THRESHOLD
                 /\ exists n, b' = thrown random (Sides.get (handsRef g) h) n b)
                \/ (HandPosition.isPresent (Sides.get (handsRef g) h) = true
                    /\ b' = place (Sides.get (handsRef g) h)
                                  (rank h (ballsRef (resolver random now g)) i) b)
                \/ (HandPosition.isPresent (Sides.get (handsRef g) h) = false
                    /\ b' = Ball.set_heldBy None b))).
Proof.
  unfold resolver. intro H.
  set (gL := processHand random now HandName.left g) in *.
  assert (HL : handsRef gL = handsRef g) by apply processHand_handsRef.
  destruct (processHand_ball_cases now HandName.right gL i b' H) as (bL & BL & CR).
  destruct (processHand_ball_cases now HandName.left g i bL BL) as (b & B & CL).
  exists b. split; [exact B |].
  destruct CL as [(NL & ->) | [(KL & TL & _ & ->) | [(KL & PL & ->) | (KL & PL & ->)]]].
  - (* the left hand left it alone *)
    destruct CR as [(NR & ->) | [(KR & TR & _ & ->) | [(KR & PR & ->) | (KR & PR & ->)]]].
    + left. split; [| reflexivity].
      destruct (Ball.heldBy b) as [[|]|]; congruence.
    + right. exists HandName.right. split; [exact KR |]. left.
      destruct TR as (P & _ & V & _). rewrite HL in *. eauto.
    + right. exists HandName.right. split; [exact KR |]. right. left.
      rewrite HL in *. auto.
    + right. exists HandName.right. split; [exact KR |]. right. right.
      rewrite HL in *. auto.
  - (* thrown by the left hand *)
    destruct CR as [(NR & ->) | [(KR & _) | [(KR & _) | (KR & _)]]];
      try discriminate.
    right. exists HandName.left. split; [exact KL |]. left.
    destruct TL as (P & _ & V & _). eauto.
  - (* carried by the left hand *)
    destruct CR as [(NR & ->) | [(KR & _) | [(KR & _) | (KR & _)]]];
      try (simpl in KR; congruence).
    right. exists HandName.left. split; [exact KL |]. right. left.
    split; [exact PL |]. f_equal. apply rank_ext. symmetry.
    apply processHand_keeps_other. discriminate.
  - (* dropped by the left hand *)
    destruct CR as [(NR & ->) | [(KR & _) | [(KR & _) | (KR & _)]]];
      try discriminate.
    right. exists HandName.left. split; [exact KL |]. right. right. auto.
Qed.

End ResolverBalls.

(** ** A frame: the resolver, then the physics pass *)

Section Frame.

Variable random : nat -> Q.

Lemma physicsStep_ball_inv (g : Game) (i : nat) (b' : Ball.t) :
  nth_error (ballsRef (physicsStep random g)) i = Some b' ->
  exists b m, nth_error (ballsRef g) i = Some b
              /\ b' = fst (stepBall random (handsRef g) m b).
Proof.
  rewrite physicsStep_ballsRef. intro H.
  destruct (nth_error (ballsRef g) i) as [b|] eqn:B.
  - destruct (physics_nth random (handsRef g) (ballsRef g) (randomCalls g) i b B)
      as (m & E).
    exists b, m. split; [reflexivity | congruence].
  - rewrite (physics_nth_none random _ _ (randomCalls g) _ B) in H. discriminate.
Qed.

(** A ball that moves up faster than 0.01 per frame passes both catch tests. *)
Lemma catchChecks_rising (hands : Sides.t HandPosition.t) (ball : Ball.t) :
  Ball.vy ball <= -0.01 -> catchChecks hands ball = ball.
Proof.
  intro V. apply Qltb_ge in V.
  assert (C : forall hand h, checkHandCatch ball hand h = ball).
  { intros hand h. unfold checkHandCatch. rewrite V.
    destruct (_ || _); [reflexivity |]. now destruct (sqrt_ltb _ _). }
  unfold catchChecks. now rewrite !C.
Qed.

Lemma bounce_vy (ball : Ball.t) : Ball.vy (bounce ball) = Ball.vy ball.
Proof.
  unfold bounce. now destruct (_ || _).
Qed.

Lemma bounce_heldBy (ball : Ball.t) : Ball.heldBy (bounce ball) = Ball.heldBy ball.
Proof.
  unfold bounce. now destruct (_ || _).
Qed.

(** The physics pass on a ball that has just been thrown by a hand moving up
    faster than [THROW_THRESHOLD]: it is integrated, perhaps respawned, and
    never caught. *)
Lemma stepBall_thrown (hands : Sides.t HandPosition.t) (hand : HandPosition.t)
      (n m : nat) (b : Ball.t) :
  HandPosition.vy hand < THROW_THRESHOLD ->
  let t := bounce (integrate (thrown random hand n b)) in
  fst (stepBall random hands m (thrown random hand n b))
  = if Qltb 1.2 (Ball.y t) then respawnBall random m t else t.
Proof.
  intros V t. rewrite stepBall_free by reflexivity. cbv zeta. fold t.
  assert (R : Ball.vy t <= -0.01).
  { subst t. rewrite bounce_vy. cbn. unfold THROW_THRESHOLD, GRAVITY in *. lra. }
  rewrite (catchChecks_rising hands t R).
  subst t. now rewrite bounce_y.
Qed.

(** C3.  After the resolver step, a ball that a hand holds sits on that
    hand: the hand is present, the ball has the [x] of the hand, and its [y]
    is the [y] of the hand minus 0.05 minus the offset of its slot, which is
    [min (stack index, MAX_STACK_HEIGHT)] times [1.2 * radius]; the stack
    index is the number of balls of that hand before it in the array.
    Nothing else enters the position, so there is no drift. *)
Theorem held_ball_sits_on_hand (now : Z) (g : Game) (h : HandName.t) (i : nat)
        (b : Ball.t) :
  nth_error (ballsRef (resolver random now g)) i = Some b ->
  Ball.heldBy b = Some h ->
  let hand := Sides.get (handsRef g) h in
  let stackIndex := Nat.min (rank h (ballsRef (resolver random now g)) i)
                            MAX_STACK_HEIGHT in
  HandPosition.isPresent hand = true
  /\ Ball.x b = HandPosition.x hand
  /\ Ball.y b = HandPosition.y hand - 0.05
                - inject_Z (Z.of_nat stackIndex) * (Ball.radius b * 1.2).
Proof.
  intros B H hand stackIndex.
  destruct (resolver_ball_cases random now g i b B)
    as (b0 & B0 & [(F & ->) | (h0 & K & [(P & V & n & ->) | [(P & ->) | (P & ->)]])]);
    try (simpl in H; congruence).
  assert (h0 = h) by (simpl in H; congruence). subst h0.
  subst hand stackIndex. split; [exact P |]. split; reflexivity.
Qed.

(** The resolver releases every ball of a hand that is not present, and
    the physics pass gives none back to it. *)
Lemma lost_hand_resolver (now : Z) (g : Game) (h : HandName.t) :
  HandPosition.isPresent (Sides.get (handsRef g) h) = false ->
  (forall i b,
      nth_error (ballsRef g) i = Some b ->
      Ball.heldBy b = Some h ->
      nth_error (ballsRef (resolver random now g)) i
      = Some (Ball.set_heldBy None b))
  /\ (forall j,
        heldByAt (ballsRef (physicsStep random (resolver random now g))) j
        <> Some (Some h)).
Proof.
  intro A. split.
  - intros i b B K.
    destruct (nth_error (ballsRef (resolver random now g)) i) as [b'|] eqn:E.
    + destruct (resolver_ball_cases random now g i b' E)
        as (b0 & B0 & [(F & ->) | (h0 & K0 & C)]);
        rewrite B in B0; injection B0 as <-; [congruence |].
      assert (h0 = h) by congruence. subst h0.
      destruct C as [(P & _) | [(P & _) | (_ & ->)]]; congruence.
    + apply nth_error_None in E. rewrite resolver_length in E.
      apply nth_error_None in E. congruence.
  - intros j H. unfold heldByAt in H.
    destruct (nth_error (ballsRef (physicsStep random (resolver random now g))) j)
      as [b'|] eqn:E; [| discriminate].
    simpl in H. injection H as H.
    destruct (physicsStep_ball_inv _ j b' E) as (br & m & Br & ->).
    rewrite resolver_handsRef in H.
    assert (N : Ball.heldBy br <> Some h).
    { destruct (resolver_ball_cases random now g j br Br)
        as (b0 & B0 & [(F & ->) | (h0 & K0 & C)]);
        [| destruct C as [(P & V & n & ->) | [(P & ->) | (P & ->)]]];
        simpl; congruence. }
    destruct (Ball.heldBy br) as [h1|] eqn:Kr.
    + rewrite stepBall_held in H by congruence. congruence.
    + rewrite (stepBall_free random _ _ _ Kr) in H. cbv zeta in H.
      destruct (catchChecks_cases (handsRef g) (bounce (integrate br)))
        as [C | (h1 & _ & P & C)]; rewrite C in H.
      * destruct (Qltb _ _); simpl in H; [discriminate |].
        rewrite bounce_heldBy in H. simpl in H. congruence.
      * destruct (Qltb _ _); simpl in H; [discriminate |].
        injection H as ->. congruence.
Qed.

(** A ball that a hand holds after the resolver and the physics pass: the
    hand is present, and the ball has the velocity of the hand when the
    hand held it before the resolver, and no velocity otherwise. *)
Lemma held_after_physics (now : Z) (g : Game) (h : HandName.t) (i : nat)
        (b' : Ball.t) :
  nth_error (ballsRef (physicsStep random (resolver random now g))) i = Some b' ->
  Ball.heldBy b' = Some h ->
  let hand := Sides.get (handsRef g) h in
  HandPosition.isPresent hand = true
  /\ exists b,
      nth_error (ballsRef g) i = Some b
      /\ ((Ball.heldBy b = Some h
           /\ Ball.vx b' = HandPosition.vx hand
           /\ Ball.vy b' = HandPosition.vy hand)
          \/ (Ball.heldBy b <> Some h /\ Ball.vx b' = 0 /\ Ball.vy b' = 0)).
Proof.
  intros E H hand. subst hand.
  destruct (physicsStep_ball_inv _ i b' E) as (br & m & Br & ->).
  rewrite resolver_handsRef in H.
  assert (Free : Ball.heldBy br = None ->
                 HandPosition.isPresent (Sides.get (handsRef g) h) = true
                 /\ Ball.vx (fst (stepBall random (handsRef g) m br)) = 0
                 /\ Ball.vy (fst (stepBall random (handsRef g) m br)) = 0).
  { intro Kr. rewrite (stepBall_free random _ _ _ Kr) in *. cbv zeta in *.
    destruct (catchChecks_cases (handsRef g) (bounce (integrate br)))
      as [C | (h1 & _ & P & C)]; rewrite C in *.
    - destruct (Qltb _ _); simpl in H; [discriminate |].
      rewrite bounce_heldBy in H. simpl in H. congruence.
    - destruct (Qltb _ _); simpl in H; [discriminate |].
      injection H as ->. auto. }
  rewrite resolver_handsRef.
  destruct (resolver_ball_cases random now g i br Br)
    as (b & B & [(F & ->) | (h0 & K & [(P & V & n & ->) | [(P & ->) | (P & ->)]])]).
  - destruct (Free F) as (P & X & Y). split; [exact P |].
    exists b. split; [exact B |]. right. repeat split; auto. congruence.
  - exfalso. rewrite (stepBall_thrown _ _ _ _ _ V) in H. cbv zeta in H.
    destruct (Qltb _ _); simpl in H; [discriminate |].
    rewrite bounce_heldBy in H. discriminate.
  - rewrite stepBall_held in * by (simpl; congruence).
    assert (h0 = h) by (simpl in H; congruence). subst h0.
    split; [exact P |]. exists b. split; [exact B |]. left.
    repeat split; auto.
  - destruct (Free eq_refl) as (P' & X & Y). split; [exact P' |].
    exists b. split; [exact B |]. right. repeat split; auto.
    intro K'. assert (h0 = h) by congruence. subst h0. congruence.
Qed.

End Frame.

(** ** A whole frame of [updateGame] *)

Section UpdateGame.

Variable random : nat -> Q.
Variable targetBallCount : Z.

Lemma heldRefs_ext (h : HandName.t) (bs cs : list Ball.t) :
  map (Ball.heldByIs h) bs = map (Ball.heldByIs h) cs ->
  heldRefs h bs = heldRefs h cs.
Proof.
  apply filterRefs_ext.
Qed.

Lemma spawnStep_ballsRef (now idNow : Z) (g : Game) :
  ballsRef (spawnStep random targetBallCount now idNow g)
  = if spawnDue targetBallCount now g
    then ballsRef g ++ [newBall random idNow (randomCalls g)]
    else ballsRef g.
Proof.
  unfold spawnStep. now destruct (spawnDue targetBallCount now g).
Qed.

Lemma spawnStep_handsRef (now idNow : Z) (g : Game) :
  handsRef (spawnStep random targetBallCount now idNow g) = handsRef g.
Proof.
  unfold spawnStep. now destruct (spawnDue targetBallCount now g).
Qed.

Lemma spawnStep_throwCooldowns (now idNow : Z) (g : Game) :
  throwCooldowns (spawnStep random targetBallCount now idNow g) = throwCooldowns g.
Proof.
  unfold spawnStep. now destruct (spawnDue targetBallCount now g).
Qed.

Lemma spawnStep_heldRefs (now idNow : Z) (g : Game) (h : HandName.t) :
  heldRefs h (ballsRef (spawnStep random targetBallCount now idNow g))
  = heldRefs h (ballsRef g).
Proof.
  rewrite spawnStep_ballsRef. destruct (spawnDue targetBallCount now g); [| reflexivity].
  unfold heldRefs. rewrite filterRefs_app. simpl. apply app_nil_r.
Qed.

Lemma spawnStep_nth (now idNow : Z) (g : Game) (i : nat) (b : Ball.t) :
  nth_error (ballsRef g) i = Some b ->
  nth_error (ballsRef (spawnStep random targetBallCount now idNow g)) i = Some b.
Proof.
  intro B. rewrite spawnStep_ballsRef.
  destruct (spawnDue targetBallCount now g); [| exact B].
  rewrite nth_error_app1; [exact B |].
  apply nth_error_Some. congruence.
Qed.

Lemma spawnStep_throwOccurs (now idNow : Z) (g : Game) (h : HandName.t) :
  throwOccurs now h (spawnStep random targetBallCount now idNow g) = throwOccurs now h g.
Proof.
  unfold throwOccurs.
  now rewrite spawnStep_handsRef, spawnStep_heldRefs, spawnStep_throwCooldowns.
Qed.

(** The turn of the right hand comes after the left hand, which changes
    nothing of what the throw of the right hand depends on. *)
Lemma processHand_left_heldRefs_right (now : Z) (g : Game) :
  heldRefs HandName.right
           (ballsRef (processHand random now HandName.left g))
  = heldRefs HandName.right (ballsRef g).
Proof.
  apply heldRefs_ext, processHand_keeps_other. discriminate.
Qed.

Lemma processHand_left_throwOccurs_right (now : Z) (g : Game) :
  throwOccurs now HandName.right (processHand random now HandName.left g)
  = throwOccurs now HandName.right g.
Proof.
  unfold throwOccurs at 1.
  rewrite processHand_handsRef, processHand_left_heldRefs_right,
    processHand_throwCooldowns.
  now destruct (throwOccurs now HandName.left g).
Qed.

(** The resolver throws the top of the stack of a hand that meets the four
    conditions at the start of the resolver step. *)
Lemma resolver_throws (now : Z) (g : Game) (h : HandName.t) (b : Ball.t) :
  throwCondition now h g ->
  nth_error (ballsRef g) (lastRef (heldRefs h (ballsRef g))) = Some b ->
  exists n,
    nth_error (ballsRef (resolver random now g)) (lastRef (heldRefs h (ballsRef g)))
    = Some (thrown random (Sides.get (handsRef g) h) n b).
Proof.
  intros T B. pose proof T as (P & H & _).
  apply heldRefs_nonempty in H.
  destruct (lastRef_heldRefs h (ballsRef g) H) as (A & _).
  unfold heldByAt in A. rewrite B in A. simpl in A. injection A as A.
  apply throwOccurs_true in T. unfold resolver. destruct h.
  - exists (randomCalls g).
    pose proof (processHand_ball random now HandName.left g _ b B) as L.
    cbv zeta in L.
    replace (Ball.heldByIs HandName.left b) with true in L
      by (symmetry; now apply heldByIs_true).
    rewrite P, T, Nat.eqb_refl in L. simpl in L.
    rewrite (processHand_ball random now HandName.right _ _ _ L).
    reflexivity.
  - exists (randomCalls (processHand random now HandName.left g)).
    pose proof (processHand_ball random now HandName.left g _ b B) as L.
    cbv zeta in L.
    replace (Ball.heldByIs HandName.left b) with false in L
      by (unfold Ball.heldByIs; now rewrite A).
    rewrite <- (processHand_left_heldRefs_right now g) in L |- *.
    rewrite (processHand_ball random now HandName.right _ _ _ L). cbv zeta.
    replace (Ball.heldByIs HandName.right b) with true
      by (symmetry; now apply heldByIs_true).
    rewrite processHand_left_throwOccurs_right, T, Nat.eqb_refl.
    rewrite processHand_handsRef, P. reflexivity.
Qed.

Lemma updateGame_playing (now idNow : Z) (g : Game) :
  gameStateRef g = PLAYING ->
  updateGame random targetBallCount now idNow g
  = physicsStep random
      (resolver random now (spawnStep random targetBallCount now idNow g)).
Proof.
  intro H. unfold updateGame. now rewrite H.
Qed.

(** C10.  In a frame processed while Playing in which a hand meets the four
    conditions of a throw, the vertical velocity of the released ball after
    the gravity step, [vy * 0.25 - 0.005 + 0.00015] for the [vy] of the
    hand, is below -0.01, and at the end of the frame the ball is held by no
    hand: it has been integrated with that velocity, or respawned when it
    was below the floor. *)
Theorem thrown_ball_is_not_caught_again (now idNow : Z) (g : Game) (h : HandName.t) :
  gameStateRef g = PLAYING ->
  throwCondition now h g ->
  let hand := Sides.get (handsRef g) h in
  let top := lastRef (heldRefs h (ballsRef g)) in
  HandPosition.vy hand * 0.25 - 0.005 + GRAVITY < -0.01
  /\ exists b',
      heldByAt (ballsRef g) top = Some (Some h)
      /\ nth_error (ballsRef (updateGame random targetBallCount now idNow g)) top
         = Some b'
      /\ Ball.heldBy b' = None
      /\ (Ball.vy b' = HandPosition.vy hand * 0.25 - 0.005 + GRAVITY
          \/ (Ball.vy b' = 0 /\ Ball.y b' = -0.2)).
Proof.
  intros Pl T hand top. pose proof T as (P & H & V & C).
  split; [unfold THROW_THRESHOLD, GRAVITY in *; subst hand; lra |].
  apply heldRefs_nonempty in H.
  destruct (lastRef_heldRefs h (ballsRef g) H) as (A & _). fold top in A.
  rewrite (updateGame_playing now idNow g Pl).
  set (g1 := spawnStep random targetBallCount now idNow g).
  assert (T1 : throwCondition now h g1).
  { apply throwOccurs_true. subst g1. rewrite spawnStep_throwOccurs.
    now apply throwOccurs_true. }
  unfold heldByAt in A.
  destruct (nth_error (ballsRef g) top) as [b|] eqn:B; [| discriminate].
  assert (B1 : nth_error (ballsRef g1) (lastRef (heldRefs h (ballsRef g1))) = Some b).
  { subst g1. rewrite spawnStep_heldRefs. now apply spawnStep_nth. }
  destruct (resolver_throws now g1 h b T1 B1) as (n & R).
  subst g1. rewrite spawnStep_heldRefs, spawnStep_handsRef in R. fold top hand in R.
  set (gR := resolver random now (spawnStep random targetBallCount now idNow g)) in *.
  destruct (physics_nth random (handsRef gR) (ballsRef gR) (randomCalls gR) top _ R)
    as (m & E).
  rewrite <- physicsStep_ballsRef in E.
  rewrite (stepBall_thrown random _ _ _ _ _ V) in E. cbv zeta in E.
  eexists. split; [unfold heldByAt; rewrite B; exact A |]. split; [exact E |].
  destruct (Qltb _ _).
  - split; [reflexivity |]. right. split; reflexivity.
  - rewrite bounce_heldBy, bounce_vy. split; [reflexivity |]. left. reflexivity.
Qed.

Lemma spawnStep_scoreRef (now idNow : Z) (g : Game) :
  scoreRef (spawnStep random targetBallCount now idNow g) = scoreRef g.
Proof.
  unfold spawnStep. now destruct (spawnDue targetBallCount now g).
Qed.

(** The ball at a position after the spawn step is the ball that was there,
    or the new ball, which nobody holds. *)
Lemma spawnStep_nth_inv (now idNow : Z) (g : Game) (i : nat) (b : Ball.t) :
  nth_error (ballsRef (spawnStep random targetBallCount now idNow g)) i = Some b ->
  nth_error (ballsRef g) i = Some b
  \/ (nth_error (ballsRef g) i = None /\ Ball.heldBy b = None).
Proof.
  rewrite spawnStep_ballsRef.
  destruct (spawnDue targetBallCount now g); [| now left].
  intro H. destruct (nth_error (ballsRef g) i) as [c|] eqn:C.
  - left. rewrite nth_error_app1 in H by (apply nth_error_Some; congruence).
    congruence.
  - right. split; [reflexivity |].
    apply nth_error_None in C. rewrite nth_error_app2 in H by exact C.
    destruct (i - List.length (ballsRef g))%nat as [|k]; simpl in H.
    + now injection H as <-.
    + destruct k; discriminate.
Qed.

(** The score of a frame: 10 for each hand that meets the four conditions
    of a throw at the start of the frame. *)
Lemma updateGame_scoreRef (now idNow : Z) (g : Game) :
  gameStateRef g = PLAYING ->
  scoreRef (updateGame random targetBallCount now idNow g)
  = (scoreRef g
     + (if throwOccurs now HandName.left g then 10 else 0)
     + (if throwOccurs now HandName.right g then 10 else 0))%Z.
Proof.
  intro Pl. rewrite (updateGame_playing now idNow g Pl).
  rewrite physicsStep_scoreRef. unfold resolver.
  rewrite !processHand_scoreRef, processHand_left_throwOccurs_right.
  rewrite !spawnStep_throwOccurs, spawnStep_scoreRef.
  destruct (throwOccurs now HandName.left g), (throwOccurs now HandName.right g); lia.
Qed.

(** C2 (as amended).  A ball that a hand holds at the end of a frame
    processed while Playing is held by a present hand and has one of two
    velocities: the velocity of the hand in this frame, when the hand
    already held the ball at the start of the frame (the ball moves rigidly
    with the hand); (0, 0), when the ball was caught during this frame. *)
Theorem held_ball_moves_with_hand (now idNow : Z) (g : Game) (h : HandName.t)
        (i : nat) (b' : Ball.t) :
  gameStateRef g = PLAYING ->
  nth_error (ballsRef (updateGame random targetBallCount now idNow g)) i = Some b' ->
  Ball.heldBy b' = Some h ->
  let hand := Sides.get (handsRef g) h in
  HandPosition.isPresent hand = true
  /\ ((heldByAt (ballsRef g) i = Some (Some h)
       /\ Ball.vx b' = HandPosition.vx hand
       /\ Ball.vy b' = HandPosition.vy hand)
      \/ (heldByAt (ballsRef g) i <> Some (Some h)
          /\ Ball.vx b' = 0 /\ Ball.vy b' = 0)).
Proof.
  intros Pl E H hand. subst hand.
  rewrite (updateGame_playing now idNow g Pl) in E.
  destruct (held_after_physics random now _ h i b' E H) as (P & b & B & C).
  rewrite spawnStep_handsRef in *. split; [exact P |].
  unfold heldByAt.
  destruct (spawnStep_nth_inv now idNow g i b B) as [B0 | (B0 & F)]; rewrite B0.
  - destruct C as [(K & V) | (K & V)]; [left | right]; simpl.
    + split; [congruence | exact V].
    + split; [congruence | exact V].
  - right. destruct C as [(K & V) | (K & V)]; [congruence |].
    split; [discriminate | exact V].
Qed.

(** C9.  In a frame processed while Playing, when a hand is not present,
    the resolver releases every ball of that hand, whatever the velocity of
    the hand and the time of its last throw, and changes nothing else of the
    ball: position and velocity stay as they were.  No ball is held by that
    hand at the end of the frame either. *)
Theorem lost_hand_drops_all (now idNow : Z) (g : Game) (h : HandName.t) :
  gameStateRef g = PLAYING ->
  HandPosition.isPresent (Sides.get (handsRef g) h) = false ->
  (forall i b,
      nth_error (ballsRef g) i = Some b ->
      Ball.heldBy b = Some h ->
      nth_error
        (ballsRef (resolver random now (spawnStep random targetBallCount now idNow g))) i
      = Some (Ball.set_heldBy None b))
  /\ (forall j,
        heldByAt (ballsRef (updateGame random targetBallCount now idNow g)) j
        <> Some (Some h)).
Proof.
  intros Pl A. rewrite (updateGame_playing now idNow g Pl).
  rewrite <- (spawnStep_handsRef now idNow g) in A.
  destruct (lost_hand_resolver random now _ h A) as (R & F).
  split; [| exact F].
  intros i b B K. apply R; [| exact K]. now apply spawnStep_nth.
Qed.

End UpdateGame.

(** ** The spawn scheduler *)

Section Spawn.

Variable random : nat -> Q.
Variable targetBallCount : Z.

Lemma processHand_lastSpawnTimeRef (now : Z) (h : HandName.t) (g : Game) :
  lastSpawnTimeRef (processHand random now h g) = lastSpawnTimeRef g.
Proof.
  unfold processHand, throwIntent. cbv zeta.
  destruct (HandPosition.isPresent (Sides.get (handsRef g) h)); simpl.
  - destruct (0 <? List.length (heldRefs h (ballsRef g)))%nat; simpl.
    + destruct (Qltb _ _ && _); reflexivity.
    + reflexivity.
  - destruct (0 <? List.length (heldRefs h (ballsRef g)))%nat; reflexivity.
Qed.

Lemma physicsStep_lastSpawnTimeRef (g : Game) :
  lastSpawnTimeRef (physicsStep random g) = lastSpawnTimeRef g.
Proof.
  unfold physicsStep. now destruct (physics random _ _ _).
Qed.

Lemma spawnDue_true (now : Z) (g : Game) :
  spawnDue targetBallCount now g = true
  <-> (Z.of_nat (List.length (ballsRef g)) < targetBallCount
       /\ now - lastSpawnTimeRef g > 500)%Z.
Proof.
  unfold spawnDue. now rewrite andb_true_iff, Z.ltb_lt, Z.gtb_gt.
Qed.

(** C7 (as amended).  While Playing, a frame adds a ball to the array
    exactly when the array holds fewer balls than the target count and more
    than 500 ms have passed since the last spawn; it then adds one ball, at
    the end of the array, created with [x] in [0.2, 0.8], [y = -0.1], above
    the visible area, a horizontal velocity of at most 0.0025 in size, no
    vertical velocity and no holder, and the time of the last spawn becomes
    [now]; otherwise the array keeps its size. *)
Theorem spawn_iff_due (now idNow : Z) (g : Game) :
  gameStateRef g = PLAYING ->
  (forall n, 0 <= random n /\ random n < 1) ->
  let g' := updateGame random targetBallCount now idNow g in
  ((Z.of_nat (List.length (ballsRef g)) < targetBallCount
    /\ now - lastSpawnTimeRef g > 500)%Z ->
     List.length (ballsRef g') = S (List.length (ballsRef g))
     /\ lastSpawnTimeRef g' = now
     /\ exists nb,
          ballsRef (spawnStep random targetBallCount now idNow g) = ballsRef g ++ [nb]
          /\ (0.2 <= Ball.x nb /\ Ball.x nb <= 0.8)
          /\ Ball.y nb = -0.1 /\ Ball.y nb < 0
          /\ (-0.0025 <= Ball.vx nb /\ Ball.vx nb <= 0.0025)
          /\ Ball.vy nb = 0
          /\ Ball.heldBy nb = None)
  /\ (~ (Z.of_nat (List.length (ballsRef g)) < targetBallCount
         /\ now - lastSpawnTimeRef g > 500)%Z ->
       List.length (ballsRef g') = List.length (ballsRef g)
       /\ lastSpawnTimeRef g' = lastSpawnTimeRef g).
Proof.
  intros Pl Rg g'. subst g'.
  rewrite (updateGame_playing random targetBallCount now idNow g Pl).
  rewrite physicsStep_ballsRef, physics_length, resolver_length.
  rewrite physicsStep_lastSpawnTimeRef. unfold resolver.
  rewrite !processHand_lastSpawnTimeRef, spawnStep_ballsRef.
  split; intro D.
  - apply spawnDue_true in D. unfold spawnStep. rewrite D.
    split; [rewrite length_app; simpl; lia |].
    split; [reflexivity |].
    eexists. split; [reflexivity |]. cbn.
    pose proof (Rg (randomCalls g + 1)%nat) as [R1 R1'].
    pose proof (Rg (randomCalls g + 2)%nat) as [R2 R2'].
    repeat split; try lra.
  - assert (F : spawnDue targetBallCount now g = false).
    { destruct (spawnDue targetBallCount now g) eqn:E; [| reflexivity].
      apply spawnDue_true in E. contradiction. }
    unfold spawnStep. rewrite F. split; reflexivity.
Qed.

End Spawn.

(** ** The hand tracker *)

Lemma detected_tracked (prev : Sides.t HandPosition.t) (c : Classification)
      (palm : Landmark) :
  detected prev c palm = tracked (Sides.get prev (sideOf c)) palm.
Proof.
  unfold detected, tracked, sideOf. now destruct (isLeft c).
Qed.

(** The loop, from any value of [nextLeft] and [nextRight]. *)
Lemma detections_spec (prev : Sides.t HandPosition.t)
      (landmarks : list (list Landmark)) (handedness : list Classification)
      (next0 next : Sides.t HandPosition.t) (h : HandName.t) :
  detections prev landmarks handedness next0 = Some next ->
  match lastDetection h (combine landmarks handedness) with
  | None => Sides.get next h = Sides.get next0 h
  | Some lms =>
      exists palm, nth_error lms 9 = Some palm
                   /\ Sides.get next h = tracked (Sides.get prev h) palm
  end.
Proof.
  revert handedness next0.
  induction landmarks as [|lms landmarks IH]; intros handedness next0 H.
  - simpl in *. now injection H as ->.
  - destruct handedness as [|c handedness]; [discriminate |].
    cbn [detections] in H.
    destruct (nth_error lms 9) as [palm|] eqn:E; [| discriminate].
    specialize (IH _ _ H). cbn [combine lastDetection].
    destruct (lastDetection h (combine landmarks handedness)); [exact IH |].
    rewrite IH, detected_tracked. unfold sideOf.
    destruct (isLeft c), h; simpl; eauto.
Qed.

Lemma detections_total (prev : Sides.t HandPosition.t)
      (landmarks : list (list Landmark)) (handedness : list Classification)
      (next0 : Sides.t HandPosition.t) :
  (List.length landmarks <= List.length handedness)%nat ->
  (forall lms, In lms landmarks -> (9 < List.length lms)%nat) ->
  exists next, detections prev landmarks handedness next0 = Some next.
Proof.
  revert handedness next0.
  induction landmarks as [|lms landmarks IH]; intros handedness next0 L W.
  - simpl. eauto.
  - destruct handedness as [|c handedness]; simpl in L; [lia |].
    cbn [detections].
    destruct (nth_error lms 9) as [palm|] eqn:E.
    + apply IH; [lia |]. intros l Hl. apply W. now right.
    + apply nth_error_None in E. specialize (W lms (or_introl eq_refl)). lia.
Qed.

(** The loop reads as many classifications as there are landmark sets. *)
Lemma detections_firstn (prev : Sides.t HandPosition.t)
      (landmarks : list (list Landmark)) (handedness : list Classification)
      (next0 : Sides.t HandPosition.t) (n : nat) :
  (List.length landmarks <= n)%nat ->
  detections prev landmarks (firstn n handedness) next0
  = detections prev landmarks handedness next0.
Proof.
  revert handedness next0 n.
  induction landmarks as [|lms landmarks IH]; intros handedness next0 n L.
  - reflexivity.
  - destruct n as [|n]; [simpl in L; lia |].
    destruct handedness as [|c handedness]; [reflexivity |].
    cbn [firstn detections]. destruct (nth_error lms 9); [| reflexivity].
    apply IH. simpl in L. lia.
Qed.

(** C8.  For every landmark frame that the tracker delivers (it is
    configured with [maxNumHands: 2], so a frame has at most two
    detections) and in which each detection has its landmark 9 and its
    classification, the hand-state update succeeds and is the update of the
    first two detections in source order.  For each side with a detection
    among them (the later one, when both carry the same label): the anchor
    is its landmark 9, the velocity is the anchor minus the previous anchor
    of that side, per axis, and the hand is present.  A side with no
    detection is not present and keeps its previous position and
    velocity. *)
Theorem hand_state_update (results : Results) (prev : Sides.t HandPosition.t) :
  delivered results ->
  wellFormed results ->
  exists next,
    trackHands results prev = Some next
    /\ trackHands (firstTwo results) prev = Some next
    /\ forall h,
        match lastDetection h (firstn maxNumHands (detectionsOf results)) with
        | None =>
            Sides.get next h = absent (Sides.get prev h)
            /\ HandPosition.isPresent (Sides.get next h) = false
            /\ HandPosition.x (Sides.get next h) = HandPosition.x (Sides.get prev h)
            /\ HandPosition.y (Sides.get next h) = HandPosition.y (Sides.get prev h)
            /\ HandPosition.vx (Sides.get next h) = HandPosition.vx (Sides.get prev h)
            /\ HandPosition.vy (Sides.get next h) = HandPosition.vy (Sides.get prev h)
        | Some lms =>
            exists palm,
              nth_error lms 9 = Some palm
              /\ HandPosition.isPresent (Sides.get next h) = true
              /\ HandPosition.x (Sides.get next h) = lx palm
              /\ HandPosition.y (Sides.get next h) = ly palm
              /\ HandPosition.vx (Sides.get next h)
                 = lx palm - HandPosition.x (Sides.get prev h)
              /\ HandPosition.vy (Sides.get next h)
                 = ly palm - HandPosition.y (Sides.get prev h)
        end.
Proof.
  intros D W. unfold delivered, wellFormed, trackHands, detectionsOf, firstTwo in *.
  cbn [multiHandLandmarks multiHandedness].
  set (next0 := Sides.mk (absent (Sides.left prev)) (absent (Sides.right prev))).
  assert (N0 : forall h, Sides.get next0 h = absent (Sides.get prev h))
    by (now intros []).
  destruct (multiHandLandmarks results) as [landmarks|];
    [destruct (multiHandedness results) as [handedness|] |].
  - destruct W as [L W]. cbn [option_map].
    destruct (detections_total prev landmarks handedness next0 L W) as (next & E).
    exists next. split; [exact E |]. split.
    + rewrite (firstn_all2 landmarks) by exact D.
      rewrite detections_firstn by exact D. exact E.
    + intro h.
      rewrite firstn_all2 by (rewrite length_combine; lia).
      pose proof (detections_spec prev landmarks handedness next0 next h E) as S.
      destruct (lastDetection h (combine landmarks handedness)).
      * destruct S as (palm & P & ->). exists palm. repeat split; auto.
      * rewrite S, N0. repeat split.
  - exists next0. split; [reflexivity |]. split; [reflexivity |].
    intro h. simpl. rewrite N0. repeat split.
  - exists next0. split; [reflexivity |]. split; [reflexivity |].
    intro h. simpl. rewrite N0. repeat split.
Qed.

(** ** Concrete sessions *)

Lemma sample_random_range (n : nat) : 0 <= Sample.random n /\ Sample.random n < 1.
Proof.
  unfold Sample.random. split; lra.
Qed.

(** C1, as stated, fails when the stack of a hand is read in catch order.
    Two balls, A at position 0 and B at position 1 of the array.  Frame 1:
    the left hand appears under B and catches it.  Frame 2: the hand moves
    sideways under A and catches it too, so A is the ball added to the hand
    most recently.  Frame 3: the hand flicks up; the throw releases B, the
    ball caught first, and keeps A. *)
Lemma throw_releases_last_in_array_not_last_caught :
  exists g1 g2 g3,
    onResults Sample.random true 1000 1000 (Sample.leftAt 0.5 0.5) Sample.start
    = Some g1
    /\ map Ball.heldBy (ballsRef g1) = [None; Some HandName.left; None]
    /\ onResults Sample.random true 1016 1016 (Sample.leftAt 0.1 0.5) g1 = Some g2
    /\ map Ball.heldBy (ballsRef g2) = [Some HandName.left; Some HandName.left; None]
    /\ scoreRef g2 = 0%Z
    /\ onResults Sample.random true 1032 1032 (Sample.leftAt 0.1 0.4) g2 = Some g3
    /\ map Ball.heldBy (ballsRef g3) = [Some HandName.left; None; None]
    /\ scoreRef g3 = 10%Z.
Proof.
  do 3 eexists. repeat split; vm_compute; reflexivity.
Qed.

(** The throw of [Sample.throwing]: the four conditions hold, the score goes
    from 0 to 10 and the ball at position 1 is released. *)
Lemma throw_iff_conditions_witness :
  throwCondition 1032 HandName.left Sample.throwing
  /\ scoreRef (processHand Sample.random 1032 HandName.left Sample.throwing) = 10%Z.
Proof.
  assert (T : throwCondition 1032 HandName.left Sample.throwing).
  { unfold throwCondition. simpl. repeat split.
    exists 0%nat. reflexivity. }
  split; [exact T |].
  exact (proj1 (proj1 (throw_iff_conditions Sample.random 1032 HandName.left
                                            Sample.throwing) T)).
Defined.

(** C2, as stated, fails one frame after a catch.  Frame 1 of the session
    above: ball B is caught and its velocity is (0, 0).  Frame 2: the hand
    moves sideways and B, still held, has the horizontal velocity of the
    hand, -0.4. *)
Lemma held_ball_velocity_is_not_zero :
  exists g1 g2 b1 b2,
    onResults Sample.random true 1000 1000 (Sample.leftAt 0.5 0.5) Sample.start
    = Some g1
    /\ nth_error (ballsRef g1) 1 = Some b1
    /\ Ball.heldBy b1 = Some HandName.left
    /\ Ball.vx b1 = 0 /\ Ball.vy b1 = 0
    /\ onResults Sample.random true 1016 1016 (Sample.leftAt 0.1 0.5) g1 = Some g2
    /\ nth_error (ballsRef g2) 1 = Some b2
    /\ Ball.heldBy b2 = Some HandName.left
    /\ Ball.vx b2 == -0.4
    /\ ~ Ball.vx b2 == 0.
Proof.
  do 4 eexists.
  split; [vm_compute; reflexivity |].
  split; [vm_compute; reflexivity |].
  split; [reflexivity |]. split; [reflexivity |]. split; [reflexivity |].
  split; [vm_compute; reflexivity |].
  split; [vm_compute; reflexivity |].
  split; [reflexivity |].
  split; [reflexivity |].
  intro H. discriminate H.
Qed.

Lemma held_ball_moves_with_hand_witness :
  exists b',
    nth_error (ballsRef (Sample.frame 1016 Sample.holding)) 0 = Some b'
    /\ Ball.heldBy b' = Some HandName.left
    /\ Ball.vx b' = -0.4.
Proof.
  eexists. split; [reflexivity |]. split; [reflexivity |].
  destruct (held_ball_moves_with_hand Sample.random initialTargetBallCount
                                      1016 1016 Sample.holding
                                      HandName.left 0 _ eq_refl eq_refl eq_refl)
    as (_ & [(_ & X & _) | (N & _)]).
  - exact X.
  - exfalso. apply N. reflexivity.
Defined.

Lemma held_ball_sits_on_hand_witness :
  exists b,
    nth_error (ballsRef (resolver Sample.random 1016 Sample.holding)) 1 = Some b
    /\ Ball.heldBy b = Some HandName.left
    /\ Ball.x b = 0.1
    /\ Ball.y b == 0.5 - 0.05 - 1 * (0.04 * 1.2).
Proof.
  eexists. split; [reflexivity |]. split; [reflexivity |].
  destruct (held_ball_sits_on_hand Sample.random 1016 Sample.holding
                                   HandName.left 1 _ eq_refl eq_refl)
    as (_ & X & Y).
  split; [exact X |]. rewrite Y. reflexivity.
Defined.


(** A ball that crosses the left wall at 0.03 - 0.02 = 0.01 comes back to
    [x = radius] with its horizontal velocity reversed and damped. *)
Lemma wall_bounce_witness :
  Ball.vx (bounce (integrate Sample.leaving)) = -0.02 * -0.8
  /\ Ball.x (bounce (integrate Sample.leaving)) == BALL_RADIUS.
Proof.
  destruct (proj1 (wall_bounce Sample.leaving)) as (V & _ & C).
  - left. reflexivity.
  - split; [exact V |]. apply C; [discriminate | reflexivity].
Defined.

Lemma fallen_ball_is_respawned_witness :
  exists b',
    nth_error (ballsRef (physicsStep Sample.random Sample.falling)) 0 = Some b'
    /\ Ball.y b' = -0.2 /\ Ball.heldBy b' = None.
Proof.
  destruct (proj1 (fallen_ball_is_respawned Sample.random initialTargetBallCount
                                            1000 1000 Sample.falling)
                  0%nat Sample.fallen eq_refl eq_refl eq_refl)
    as (b' & E & Y & _ & H & _).
  exists b'. auto.
Defined.

(** C7, as stated, fails at the boundary: exactly 500 ms after the last
    spawn, with no ball for a target of three, the frame spawns nothing. *)
Lemma no_spawn_after_exactly_500ms :
  gameStateRef Sample.empty = PLAYING
  /\ (Z.of_nat (List.length (ballsRef Sample.empty))
      < initialTargetBallCount)%Z
  /\ (500 - lastSpawnTimeRef Sample.empty >= 500)%Z
  /\ ballsRef (Sample.frame 500 Sample.empty) = [].
Proof.
  repeat split; try reflexivity. discriminate.
Qed.

Lemma spawn_iff_due_witness :
  List.length (ballsRef (Sample.frame 501 Sample.empty)) = 1%nat
  /\ lastSpawnTimeRef (Sample.frame 501 Sample.empty) = 501%Z.
Proof.
  destruct (proj1 (spawn_iff_due Sample.random initialTargetBallCount
                                 501 501 Sample.empty eq_refl
                                 sample_random_range))
    as (L & T & _).
  - split; reflexivity.
  - split; [exact L | exact T].
Defined.

Lemma hand_state_update_witness :
  exists next,
    trackHands Sample.twoHands (Sides.mk Sample.idle Sample.idle) = Some next
    /\ HandPosition.isPresent (Sides.left next) = true
    /\ HandPosition.isPresent (Sides.right next) = true.
Proof.
  assert (D : delivered Sample.twoHands)
    by (unfold delivered, maxNumHands; simpl; lia).
  assert (W : wellFormed Sample.twoHands).
  { split; [simpl; lia |].
    intros lms [<- | [<- | []]]; simpl; lia. }
  destruct (hand_state_update Sample.twoHands (Sides.mk Sample.idle Sample.idle) D W)
    as (next & E & _ & S).
  exists next. split; [exact E |].
  pose proof (S HandName.left) as L. pose proof (S HandName.right) as R.
  simpl in L, R.
  destruct L as (pl & _ & PL & _). destruct R as (pr & _ & PR & _).
  split; assumption.
Defined.

Lemma lost_hand_drops_all_witness :
  nth_error (ballsRef (resolver Sample.random 1016
                         (spawnStep Sample.random initialTargetBallCount
                                    1016 1016 Sample.losing))) 1
  = Some (Ball.set_heldBy None Sample.heldB).
Proof.
  exact (proj1 (lost_hand_drops_all Sample.random initialTargetBallCount
                                    1016 1016 Sample.losing HandName.left
                                    eq_refl eq_refl)
               1%nat Sample.heldB eq_refl eq_refl).
Defined.

Lemma thrown_ball_is_not_caught_again_witness :
  throwCondition 1032 HandName.left Sample.throwing
  /\ heldByAt (ballsRef (Sample.frame 1032 Sample.throwing)) 1
     = Some None.
Proof.
  assert (T : throwCondition 1032 HandName.left Sample.throwing).
  { unfold throwCondition. simpl. repeat split.
    exists 0%nat. reflexivity. }
  split; [exact T |].
  destruct (thrown_ball_is_not_caught_again Sample.random initialTargetBallCount
                                            1032 1032 Sample.throwing
                                            HandName.left eq_refl T)
    as (_ & b' & _ & E & H & _).
  change (lastRef (heldRefs HandName.left (ballsRef Sample.throwing))) with 1%nat in E.
  unfold heldByAt, Sample.frame. rewrite E. simpl. now rewrite H.
Defined.

(** * Further properties *)

(** ** The hand tracker: malformed frames, still hands, lost hands *)

Lemma detections_wellFormed (prev : Sides.t HandPosition.t)
      (landmarks : list (list Landmark)) (handedness : list Classification)
      (next0 next : Sides.t HandPosition.t) :
  detections prev landmarks handedness next0 = Some next ->
  (List.length landmarks <= List.length handedness)%nat
  /\ forall lms, In lms landmarks -> (9 < List.length lms)%nat.
Proof.
  revert handedness next0.
  induction landmarks as [|lms landmarks IH]; intros handedness next0 H.
  - split; [simpl; lia | intros l []].
  - destruct handedness as [|c handedness]; [discriminate |].
    cbn [detections] in H.
    destruct (nth_error lms 9) as [palm|] eqn:E; [| discriminate].
    destruct (IH _ _ H) as [L W]. split; [simpl; lia |].
    intros l [<- | I]; [| now apply W].
    apply nth_error_Some. congruence.
Qed.

Lemma trackHands_spec (results : Results) (prev next : Sides.t HandPosition.t)
      (h : HandName.t) :
  trackHands results prev = Some next ->
  match lastDetection h (detectionsOf results) with
  | None => Sides.get next h = absent (Sides.get prev h)
  | Some lms =>
      exists palm, nth_error lms 9 = Some palm
                   /\ Sides.get next h = tracked (Sides.get prev h) palm
  end.
Proof.
  unfold trackHands, detectionsOf.
  set (next0 := Sides.mk (absent (Sides.left prev)) (absent (Sides.right prev))).
  assert (N0 : Sides.get next0 h = absent (Sides.get prev h)) by (now destruct h).
  destruct (multiHandLandmarks results) as [landmarks|];
    [destruct (multiHandedness results) as [handedness|] |].
  - intro E.
    pose proof (detections_spec prev landmarks handedness next0 next h E) as S.
    destruct (lastDetection h (combine landmarks handedness)); [exact S |].
    now rewrite S.
  - intro E. injection E as <-. exact N0.
  - intro E. injection E as <-. exact N0.
Qed.

Lemma hand_state_total (results : Results) (prev : Sides.t HandPosition.t) :
  wellFormed results -> exists next, trackHands results prev = Some next.
Proof.
  unfold wellFormed, trackHands.
  destruct (multiHandLandmarks results) as [landmarks|]; [| eauto].
  destruct (multiHandedness results) as [handedness|]; [| eauto].
  intros [L W]. now apply detections_total.
Qed.

(** [onResults] throws exactly on the frames in which a detection lacks its
    landmark 9 or its classification, whatever the state; nothing is written
    then. *)
Theorem malformed_frame_throws (results : Results) :
  (forall prev, trackHands results prev = None <-> ~ wellFormed results)
  /\ (forall random canvas now idNow g,
        onResults random canvas now idNow results g = None
        <-> ~ wellFormed results).
Proof.
  assert (T : forall prev, trackHands results prev = None <-> ~ wellFormed results).
  { intro prev. split.
    - intros E W.
      destruct (hand_state_total results prev W) as (next & N). congruence.
    - intro N. destruct (trackHands results prev) as [next|] eqn:E; [| reflexivity].
      exfalso. apply N. unfold trackHands, wellFormed in *.
      destruct (multiHandLandmarks results) as [landmarks|]; [| exact I].
      destruct (multiHandedness results) as [handedness|]; [| exact I].
      exact (detections_wellFormed _ _ _ _ _ E). }
  split; [exact T |].
  intros random canvas now idNow g. rewrite <- (T (handsRef g)).
  unfold onResults. destruct (trackHands results (handsRef g)); split; congruence.
Qed.

(** A hand reported twice at the same place has no velocity the second
    time, and stays where it is. *)
Theorem still_hand_has_no_velocity
        (results : Results) (prev next1 next2 : Sides.t HandPosition.t)
        (h : HandName.t) (lms : list Landmark) :
  trackHands results prev = Some next1 ->
  trackHands results next1 = Some next2 ->
  lastDetection h (detectionsOf results) = Some lms ->
  HandPosition.isPresent (Sides.get next2 h) = true
  /\ HandPosition.vx (Sides.get next2 h) == 0
  /\ HandPosition.vy (Sides.get next2 h) == 0
  /\ HandPosition.x (Sides.get next2 h) = HandPosition.x (Sides.get next1 h)
  /\ HandPosition.y (Sides.get next2 h) = HandPosition.y (Sides.get next1 h).
Proof.
  intros E1 E2 L.
  pose proof (trackHands_spec results prev next1 h E1) as S1.
  pose proof (trackHands_spec results next1 next2 h E2) as S2.
  rewrite L in S1, S2.
  destruct S1 as (p1 & P1 & G1). destruct S2 as (p2 & P2 & G2).
  assert (p2 = p1) by congruence. subst p2. rewrite G2, G1. unfold tracked.
  cbn [HandPosition.isPresent HandPosition.vx HandPosition.vy
       HandPosition.x HandPosition.y].
  split; [reflexivity |]. split; [lra |]. split; [lra |].
  split; reflexivity.
Qed.

Lemma still_hand_has_no_velocity_witness :
  exists next1 next2,
    trackHands (Sample.leftAt 0.5 0.5) (Sides.mk Sample.idle Sample.idle) = Some next1
    /\ trackHands (Sample.leftAt 0.5 0.5) next1 = Some next2
    /\ HandPosition.vx (Sides.left next1) = 0.5 - 0
    /\ HandPosition.vx (Sides.left next2) == 0.
Proof.
  do 2 eexists. split; [reflexivity |]. split; [reflexivity |].
  split; [reflexivity |].
  exact (proj1 (proj2 (still_hand_has_no_velocity
                         (Sample.leftAt 0.5 0.5) _ _ _ HandName.left _
                         eq_refl eq_refl eq_refl))).
Defined.

(** ** The fields of the state across a frame *)

Section FrameFields.

Variable random : nat -> Q.
Variable targetBallCount : Z.

Lemma processHand_gameStateRef (now : Z) (h : HandName.t) (g : Game) :
  gameStateRef (processHand random now h g) = gameStateRef g.
Proof.
  unfold processHand, throwIntent. cbv zeta.
  destruct (HandPosition.isPresent (Sides.get (handsRef g) h)); simpl.
  - destruct (0 <? List.length (heldRefs h (ballsRef g)))%nat; simpl.
    + destruct (Qltb _ _ && _); reflexivity.
    + reflexivity.
  - destruct (0 <? List.length (heldRefs h (ballsRef g)))%nat; reflexivity.
Qed.

Lemma physicsStep_gameStateRef (g : Game) :
  gameStateRef (physicsStep random g) = gameStateRef g.
Proof.
  unfold physicsStep. now destruct (physics random _ _ _).
Qed.

Lemma physicsStep_throwCooldowns (g : Game) :
  throwCooldowns (physicsStep random g) = throwCooldowns g.
Proof.
  unfold physicsStep. now destruct (physics random _ _ _).
Qed.

Lemma spawnStep_gameStateRef (now idNow : Z) (g : Game) :
  gameStateRef (spawnStep random targetBallCount now idNow g) = gameStateRef g.
Proof.
  unfold spawnStep. now destruct (spawnDue targetBallCount now g).
Qed.

Lemma spawnStep_lastSpawnTimeRef (now idNow : Z) (g : Game) :
  lastSpawnTimeRef (spawnStep random targetBallCount now idNow g)
  = if spawnDue targetBallCount now g then now else lastSpawnTimeRef g.
Proof.
  unfold spawnStep. now destruct (spawnDue targetBallCount now g).
Qed.

Lemma resolver_throwCooldowns (now : Z) (g : Game) (h : HandName.t) :
  Sides.get (throwCooldowns (resolver random now g)) h
  = if throwOccurs now h g then now else Sides.get (throwCooldowns g) h.
Proof.
  unfold resolver.
  rewrite processHand_throwCooldowns, processHand_left_throwOccurs_right,
    processHand_throwCooldowns.
  destruct h, (throwOccurs now HandName.left g), (throwOccurs now HandName.right g);
    reflexivity.
Qed.

Lemma updateGame_handsRef (now idNow : Z) (g : Game) :
  handsRef (updateGame random targetBallCount now idNow g) = handsRef g.
Proof.
  unfold updateGame. destruct (gameStateRef g); try reflexivity.
  unfold physicsStep. destruct (physics random _ _ _). cbn.
  now rewrite resolver_handsRef, spawnStep_handsRef.
Qed.

Lemma updateGame_gameStateRef (now idNow : Z) (g : Game) :
  gameStateRef (updateGame random targetBallCount now idNow g) = gameStateRef g.
Proof.
  unfold updateGame. destruct (gameStateRef g) eqn:E; try exact E.
  rewrite physicsStep_gameStateRef. unfold resolver.
  now rewrite !processHand_gameStateRef, spawnStep_gameStateRef.
Qed.

Lemma updateGame_idle (now idNow : Z) (g : Game) :
  playing g = false -> updateGame random targetBallCount now idNow g = g.
Proof.
  unfold playing, updateGame. now destruct (gameStateRef g).
Qed.

Lemma playing_true (g : Game) : playing g = true <-> gameStateRef g = PLAYING.
Proof.
  unfold playing. destruct (gameStateRef g); split; congruence.
Qed.

Lemma updateGame_throwCooldowns (now idNow : Z) (g : Game) (h : HandName.t) :
  Sides.get (throwCooldowns (updateGame random targetBallCount now idNow g)) h
  = if playing g && throwOccurs now h g
    then now
    else Sides.get (throwCooldowns g) h.
Proof.
  destruct (playing g) eqn:P.
  - apply playing_true in P. rewrite (updateGame_playing _ _ now idNow g P).
    rewrite physicsStep_throwCooldowns, resolver_throwCooldowns.
    now rewrite spawnStep_throwOccurs, spawnStep_throwCooldowns.
  - now rewrite updateGame_idle.
Qed.

Lemma updateGame_lastSpawnTimeRef (now idNow : Z) (g : Game) :
  lastSpawnTimeRef (updateGame random targetBallCount now idNow g)
  = if playing g && spawnDue targetBallCount now g
    then now
    else lastSpawnTimeRef g.
Proof.
  destruct (playing g) eqn:P.
  - apply playing_true in P. rewrite (updateGame_playing _ _ now idNow g P).
    rewrite physicsStep_lastSpawnTimeRef. unfold resolver.
    now rewrite !processHand_lastSpawnTimeRef, spawnStep_lastSpawnTimeRef.
  - now rewrite updateGame_idle.
Qed.

Lemma updateGame_length (now idNow : Z) (g : Game) :
  List.length (ballsRef (updateGame random targetBallCount now idNow g))
  = (List.length (ballsRef g)
     + if playing g && spawnDue targetBallCount now g then 1 else 0)%nat.
Proof.
  destruct (playing g) eqn:P.
  - apply playing_true in P. rewrite (updateGame_playing _ _ now idNow g P).
    rewrite physicsStep_ballsRef, physics_length, resolver_length.
    rewrite spawnStep_ballsRef. simpl.
    destruct (spawnDue targetBallCount now g); [| lia].
    rewrite length_app. reflexivity.
  - rewrite updateGame_idle by exact P. simpl. lia.
Qed.

Lemma updateGame_score (now idNow : Z) (g : Game) :
  scoreRef (updateGame random targetBallCount now idNow g)
  = (scoreRef g
     + (if playing g && throwOccurs now HandName.left g then 10 else 0)
     + (if playing g && throwOccurs now HandName.right g then 10 else 0))%Z
  /\ (scoreRef g <= scoreRef (updateGame random targetBallCount now idNow g)
      <= scoreRef g + 20)%Z.
Proof.
  assert (E : scoreRef (updateGame random targetBallCount now idNow g)
              = (scoreRef g
                 + (if playing g && throwOccurs now HandName.left g then 10 else 0)
                 + (if playing g && throwOccurs now HandName.right g
                    then 10 else 0))%Z).
  { destruct (playing g) eqn:P.
    - apply playing_true in P. simpl.
      exact (updateGame_scoreRef random targetBallCount now idNow g P).
    - rewrite updateGame_idle by exact P. simpl. lia. }
  split; [exact E |]. rewrite E.
  destruct (playing g && throwOccurs now HandName.left g),
           (playing g && throwOccurs now HandName.right g); lia.
Qed.

(** The score of a frame: 10 for each hand that meets the four conditions
    of a throw at the start of a frame processed while Playing, nothing
    otherwise; so the score never goes down and gains at most 20. *)
Theorem frame_score (now idNow : Z) (g : Game) :
  scoreRef (updateGame random targetBallCount now idNow g)
  = (scoreRef g
     + (if playing g && throwOccurs now HandName.left g then 10 else 0)
     + (if playing g && throwOccurs now HandName.right g then 10 else 0))%Z
  /\ (scoreRef g <= scoreRef (updateGame random targetBallCount now idNow g)
      <= scoreRef g + 20)%Z.
Proof.
  exact (updateGame_score now idNow g).
Qed.

End FrameFields.

(** ** What a frame never changes in a ball *)

Lemma map_modify_keep (A : Type) (k : Ball.t -> A) (i : nat) (f : Ball.t -> Ball.t)
      (bs : list Ball.t) :
  (forall b, k (f b) = k b) -> map k (modify i f bs) = map k bs.
Proof.
  intro F. revert i. induction bs as [|b rest IH]; intros [|i]; simpl;
    try reflexivity.
  - now rewrite F.
  - now rewrite IH.
Qed.

Section Identity.

Variable random : nat -> Q.
Variable targetBallCount : Z.

Lemma catchChecks_identity (hands : Sides.t HandPosition.t) (b : Ball.t) :
  identity (catchChecks hands b) = identity b.
Proof.
  destruct (catchChecks_cases hands b) as [E | (h & _ & _ & E)]; now rewrite E.
Qed.

Lemma bounce_identity (b : Ball.t) : identity (bounce b) = identity b.
Proof.
  unfold bounce. now destruct (_ || _).
Qed.

Lemma stepBall_identity (hands : Sides.t HandPosition.t) (n : nat) (b : Ball.t) :
  identity (fst (stepBall random hands n b)) = identity b.
Proof.
  unfold stepBall. destruct (Ball.isHeld b); [reflexivity |]. cbv zeta.
  assert (E : identity (catchChecks hands (bounce (integrate b))) = identity b).
  { now rewrite catchChecks_identity, bounce_identity. }
  destruct (Qltb 1.2 _); simpl; [| exact E].
  rewrite <- E. reflexivity.
Qed.

Lemma physics_identity (hands : Sides.t HandPosition.t) (n : nat) (bs : list Ball.t) :
  map identity (fst (physics random hands n bs)) = map identity bs.
Proof.
  revert n. induction bs as [|b rest IH]; intro n; simpl.
  - reflexivity.
  - pose proof (stepBall_identity hands n b) as S.
    destruct (stepBall random hands n b) as [b' n'].
    specialize (IH n'). destruct (physics random hands n' rest) as [rest' n''].
    simpl in *. now rewrite S, IH.
Qed.

Lemma processHand_identity (now : Z) (h : HandName.t) (g : Game) :
  map identity (ballsRef (processHand random now h g)) = map identity (ballsRef g).
Proof.
  rewrite processHand_ballsRef. cbv zeta.
  destruct (HandPosition.isPresent _).
  - rewrite map_mapRank by reflexivity.
    destruct (throwOccurs now h g); [| reflexivity].
    apply map_modify_keep. reflexivity.
  - now rewrite map_mapRank.
Qed.

Lemma updateGame_identity (now idNow : Z) (g : Game) :
  map identity (ballsRef (updateGame random targetBallCount now idNow g))
  = map identity (ballsRef g)
    ++ (if playing g && spawnDue targetBallCount now g
        then [identity (newBall random idNow (randomCalls g))]
        else []).
Proof.
  destruct (playing g) eqn:P.
  - apply playing_true in P. rewrite (updateGame_playing _ _ now idNow g P).
    rewrite physicsStep_ballsRef, physics_identity. unfold resolver.
    rewrite !processHand_identity, spawnStep_ballsRef. simpl.
    destruct (spawnDue targetBallCount now g).
    + now rewrite map_app.
    + now rewrite app_nil_r.
  - rewrite updateGame_idle by exact P. simpl. now rewrite app_nil_r.
Qed.

(** A frame keeps every ball at its position in the array, with its id,
    radius, colour and [isActive] flag; the only change to the array is the
    ball that a spawn adds at the end. *)
Theorem frame_keeps_balls (now idNow : Z) (g : Game) :
  map identity (ballsRef (updateGame random targetBallCount now idNow g))
  = map identity (ballsRef g)
    ++ (if playing g && spawnDue targetBallCount now g
        then [identity (newBall random idNow (randomCalls g))]
        else []).
Proof.
  exact (updateGame_identity now idNow g).
Qed.

End Identity.

(** ** Runs of frames *)

Lemma onResults_frameStep (random : nat -> Q) (f : Frame) (g : Game) :
  onResults random (canvas f) (now f) (idNow f) (results f) g
  = frameStep random initialTargetBallCount f g.
Proof. reflexivity. Qed.

Section Runs.

Variable random : nat -> Q.
Variable targetBallCount : Z.

Lemma frameStep_inv (f : Frame) (g g' : Game) :
  frameStep random targetBallCount f g = Some g' ->
  exists hands,
    trackHands (results f) (handsRef g) = Some hands
    /\ g' = draw random targetBallCount (canvas f) (now f) (idNow f)
                 (set_handsRef hands g).
Proof.
  unfold frameStep. destruct (trackHands (results f) (handsRef g)) as [hands|];
    [| discriminate].
  intro E. injection E as <-. eauto.
Qed.

Lemma draw_cases (c : bool) (now idNow : Z) (g : Game) :
  draw random targetBallCount c now idNow g = g
  \/ draw random targetBallCount c now idNow g
     = updateGame random targetBallCount now idNow g.
Proof.
  unfold draw. destruct c; auto.
Qed.

Lemma frameStep_gameStateRef (f : Frame) (g g' : Game) :
  frameStep random targetBallCount f g = Some g' ->
  gameStateRef g' = gameStateRef g.
Proof.
  intro E. destruct (frameStep_inv f g g' E) as (hands & _ & ->).
  destruct (draw_cases (canvas f) (now f) (idNow f) (set_handsRef hands g))
    as [D | D]; rewrite D; [reflexivity |].
  now rewrite updateGame_gameStateRef.
Qed.

Lemma frameStep_handsRef (f : Frame) (g g' : Game) :
  frameStep random targetBallCount f g = Some g' ->
  trackHands (results f) (handsRef g) = Some (handsRef g').
Proof.
  intro E. destruct (frameStep_inv f g g' E) as (hands & T & ->).
  destruct (draw_cases (canvas f) (now f) (idNow f) (set_handsRef hands g))
    as [D | D]; rewrite D; [exact T |].
  now rewrite updateGame_handsRef.
Qed.

Lemma frameStep_scoreRef (f : Frame) (g g' : Game) :
  frameStep random targetBallCount f g = Some g' ->
  exists k, (0 <= k <= 2 /\ scoreRef g' = scoreRef g + 10 * k)%Z.
Proof.
  intro E. destruct (frameStep_inv f g g' E) as (hands & _ & ->).
  destruct (draw_cases (canvas f) (now f) (idNow f) (set_handsRef hands g))
    as [D | D]; rewrite D.
  - exists 0%Z. simpl. lia.
  - destruct (updateGame_score random targetBallCount (now f) (idNow f)
                          (set_handsRef hands g)) as (S & _).
    rewrite S. simpl scoreRef.
    destruct (_ && _), (_ && _);
      [exists 2%Z | exists 1%Z | exists 1%Z | exists 0%Z]; lia.
Qed.

(** Over any run of landmark frames the session state is never changed by
    the loop, and the score only grows, in steps of 10, by at most 20 a
    frame. *)
Theorem run_score (frames : list Frame) (g g' : Game) :
  run random targetBallCount frames g = Some g' ->
  gameStateRef g' = gameStateRef g
  /\ exists k,
      (0 <= k <= 2 * Z.of_nat (List.length frames)
       /\ scoreRef g' = scoreRef g + 10 * k)%Z.
Proof.
  revert g g'. induction frames as [|f rest IH]; intros g g' E; simpl in E.
  - injection E as <-. split; [reflexivity |]. exists 0%Z. simpl. lia.
  - destruct (frameStep random targetBallCount f g) as [g1|] eqn:F;
      [| discriminate].
    destruct (IH g1 g' E) as (S & k & K & Sc).
    destruct (frameStep_scoreRef f g g1 F) as (k1 & K1 & Sc1).
    split; [rewrite S; exact (frameStep_gameStateRef f g g1 F) |].
    exists (k1 + k)%Z. simpl List.length. lia.
Qed.

End Runs.

Section RunInvariants.

Variable random : nat -> Q.
Variable targetBallCount : Z.

Lemma frameStep_population (f : Frame) (g g' : Game) :
  frameStep random targetBallCount f g = Some g' ->
  exists added,
    map identity (ballsRef g') = map identity (ballsRef g) ++ added
    /\ (List.length added <= 1)%nat
    /\ (Z.of_nat (List.length (ballsRef g'))
        <= Z.max (Z.of_nat (List.length (ballsRef g))) targetBallCount)%Z.
Proof.
  intro E. destruct (frameStep_inv random targetBallCount f g g' E)
    as (hands & _ & ->).
  destruct (draw_cases random targetBallCount (canvas f) (now f) (idNow f)
                       (set_handsRef hands g)) as [D | D]; rewrite D.
  - exists []. simpl. rewrite app_nil_r. repeat split; lia.
  - rewrite updateGame_identity, updateGame_length. simpl ballsRef.
    eexists. split; [reflexivity |].
    destruct (playing (set_handsRef hands g)); simpl; [| lia].
    destruct (spawnDue targetBallCount (now f) (set_handsRef hands g)) eqn:S;
      simpl; [| lia].
    apply spawnDue_true in S. simpl in S. lia.
Qed.

(** Over any run of frames the balls that exist stay in the array, at their
    positions and with their identities; at most one ball is added per
    frame, at the end, and the array never grows beyond the target count
    that [updateGame] reads (nor shrinks below its size at the start). *)
Theorem run_population (frames : list Frame) (g g' : Game) :
  run random targetBallCount frames g = Some g' ->
  exists added,
    map identity (ballsRef g') = map identity (ballsRef g) ++ added
    /\ (List.length added <= List.length frames)%nat
    /\ (Z.of_nat (List.length (ballsRef g'))
        <= Z.max (Z.of_nat (List.length (ballsRef g))) targetBallCount)%Z.
Proof.
  revert g g'. induction frames as [|f rest IH]; intros g g' E; simpl in E.
  - injection E as <-. exists []. rewrite app_nil_r. simpl. repeat split; lia.
  - destruct (frameStep random targetBallCount f g) as [g1|] eqn:F;
      [| discriminate].
    destruct (frameStep_population f g g1 F) as (a1 & M1 & L1 & B1).
    destruct (IH g1 g' E) as (a2 & M2 & L2 & B2).
    exists (a1 ++ a2). split; [| split].
    + now rewrite M2, M1, app_assoc.
    + rewrite length_app. simpl. lia.
    + lia.
Qed.

Lemma frameStep_no_spawn (f : Frame) (g g' : Game) :
  (now f - lastSpawnTimeRef g <= 500)%Z ->
  frameStep random targetBallCount f g = Some g' ->
  List.length (ballsRef g') = List.length (ballsRef g)
  /\ lastSpawnTimeRef g' = lastSpawnTimeRef g.
Proof.
  intros T E. destruct (frameStep_inv random targetBallCount f g g' E)
    as (hands & _ & ->).
  destruct (draw_cases random targetBallCount (canvas f) (now f) (idNow f)
                       (set_handsRef hands g)) as [D | D]; rewrite D.
  - split; reflexivity.
  - rewrite updateGame_length, updateGame_lastSpawnTimeRef.
    assert (S : spawnDue targetBallCount (now f) (set_handsRef hands g) = false).
    { unfold spawnDue. simpl. apply andb_false_iff. right.
      rewrite Z.gtb_ltb. apply Z.ltb_ge. lia. }
    rewrite S, andb_false_r. simpl. split; [lia | reflexivity].
Qed.

(** The spawn throttle across frames: as long as no frame comes more than
    500 ms after the last spawn, no ball is added and the time of the last
    spawn stays. *)
Theorem no_spawn_within_500ms (frames : list Frame) (g g' : Game) :
  (forall f, In f frames -> (now f - lastSpawnTimeRef g <= 500)%Z) ->
  run random targetBallCount frames g = Some g' ->
  List.length (ballsRef g') = List.length (ballsRef g)
  /\ lastSpawnTimeRef g' = lastSpawnTimeRef g.
Proof.
  revert g g'. induction frames as [|f rest IH]; intros g g' T E; simpl in E.
  - injection E as <-. split; reflexivity.
  - destruct (frameStep random targetBallCount f g) as [g1|] eqn:F;
      [| discriminate].
    destruct (frameStep_no_spawn f g g1 (T f (or_introl eq_refl)) F) as (L1 & S1).
    destruct (IH g1 g') as (L2 & S2); [| exact E |].
    + intros f' I. rewrite S1. apply T. now right.
    + split; congruence.
Qed.

Lemma frameStep_cooling (f : Frame) (g g' : Game) (h : HandName.t) :
  (now f - Sides.get (throwCooldowns g) h <= THROW_COOLDOWN)%Z ->
  frameStep random targetBallCount f g = Some g' ->
  Sides.get (throwCooldowns g') h = Sides.get (throwCooldowns g) h
  /\ (scoreRef g' <= scoreRef g + 10)%Z.
Proof.
  intros T E. destruct (frameStep_inv random targetBallCount f g g' E)
    as (hands & _ & ->).
  destruct (draw_cases random targetBallCount (canvas f) (now f) (idNow f)
                       (set_handsRef hands g)) as [D | D]; rewrite D.
  - simpl. split; [reflexivity | lia].
  - assert (S : throwOccurs (now f) h (set_handsRef hands g) = false).
    { unfold throwOccurs. simpl throwCooldowns.
      apply andb_false_iff. right. apply andb_false_iff. right.
      rewrite Z.gtb_ltb. apply Z.ltb_ge. exact T. }
    rewrite updateGame_throwCooldowns, S, andb_false_r.
    split; [reflexivity |].
    destruct (updateGame_score random targetBallCount (now f) (idNow f)
                          (set_handsRef hands g)) as (Sc & _).
    rewrite Sc. simpl scoreRef.
    destruct h; rewrite S, andb_false_r; cbv iota;
      match goal with
      | |- context [if ?c then 10%Z else 0%Z] => destruct c
      end; lia.
Qed.

(** The throw cooldown across frames: as long as no frame comes more than
    [THROW_COOLDOWN] ms after the last throw of a hand, that hand does not
    throw: its last-throw time stays and the score gains at most 10 a frame,
    from the other hand. *)
Theorem no_throw_within_cooldown (frames : list Frame) (g g' : Game)
        (h : HandName.t) :
  (forall f, In f frames ->
             (now f - Sides.get (throwCooldowns g) h <= THROW_COOLDOWN)%Z) ->
  run random targetBallCount frames g = Some g' ->
  Sides.get (throwCooldowns g') h = Sides.get (throwCooldowns g) h
  /\ (scoreRef g' <= scoreRef g + 10 * Z.of_nat (List.length frames))%Z.
Proof.
  revert g g'. induction frames as [|f rest IH]; intros g g' T E; simpl in E.
  - injection E as <-. simpl. split; [reflexivity | lia].
  - destruct (frameStep random targetBallCount f g) as [g1|] eqn:F;
      [| discriminate].
    destruct (frameStep_cooling f g g1 h (T f (or_introl eq_refl)) F) as (C1 & S1).
    destruct (IH g1 g') as (C2 & S2); [| exact E |].
    + intros f' I. rewrite C1. apply T. now right.
    + split; [congruence |]. simpl List.length. lia.
Qed.

(** Before the game is started, frames only track the hands: whatever the
    run, the balls, the score, the timers and the session state are as they
    were. *)
Theorem idle_run_only_tracks_hands (frames : list Frame) (g g' : Game) :
  playing g = false ->
  run random targetBallCount frames g = Some g' ->
  g' = set_handsRef (handsRef g') g.
Proof.
  revert g g'. induction frames as [|f rest IH]; intros g g' P E; simpl in E.
  - injection E as <-. now destruct g.
  - destruct (frameStep random targetBallCount f g) as [g1|] eqn:F;
      [| discriminate].
    destruct (frameStep_inv random targetBallCount f g g1 F) as (hands & _ & G1).
    assert (E1 : g1 = set_handsRef hands g).
    { rewrite G1. unfold draw. destruct (canvas f); [| reflexivity].
      now apply updateGame_idle. }
    assert (P1 : playing g1 = false) by (now rewrite E1).
    rewrite (IH g1 g' P1 E), E1. reflexivity.
Qed.

Lemma unseen_hand_frozen (frames : list Frame) (g g' : Game) (h : HandName.t) :
  frames <> [] ->
  (forall f, In f frames -> lastDetection h (detectionsOf (results f)) = None) ->
  run random targetBallCount frames g = Some g' ->
  Sides.get (handsRef g') h = absent (Sides.get (handsRef g) h).
Proof.
  assert (K : forall fs g g',
             (forall f, In f fs -> lastDetection h (detectionsOf (results f)) = None) ->
             run random targetBallCount fs g = Some g' ->
             absent (Sides.get (handsRef g') h) = absent (Sides.get (handsRef g) h)
             /\ (fs <> [] ->
                 Sides.get (handsRef g') h = absent (Sides.get (handsRef g) h))).
  { induction fs as [|f rest IH]; intros a b L E; simpl in E.
    - injection E as <-. split; [reflexivity | congruence].
    - destruct (frameStep random targetBallCount f a) as [g1|] eqn:F;
        [| discriminate].
      pose proof (frameStep_handsRef random targetBallCount f a g1 F) as T.
      pose proof (trackHands_spec _ _ _ h T) as S.
      rewrite (L f (or_introl eq_refl)) in S.
      destruct (IH g1 b) as (A & N); [| exact E |].
      + intros f' I. apply L. now right.
      + rewrite S in A, N. split.
        * exact A.
        * intros _. destruct rest as [|f2 rest'].
          -- simpl in E. injection E as <-. exact S.
          -- rewrite N by discriminate. reflexivity. }
  intros N L E. now apply (K frames g g' L E).
Qed.

(** A hand that no frame of a run detects is frozen: at the end it is not
    present and has the position and the velocity it had before the run,
    however long the run. *)
Theorem lost_hand_is_frozen (frames : list Frame) (g g' : Game) (h : HandName.t) :
  frames <> [] ->
  (forall f, In f frames -> lastDetection h (detectionsOf (results f)) = None) ->
  run random targetBallCount frames g = Some g' ->
  Sides.get (handsRef g') h = absent (Sides.get (handsRef g) h).
Proof.
  exact (unseen_hand_frozen frames g g' h).
Qed.

End RunInvariants.

(** ** The balls of a hand across a frame *)

Lemma filterRefs_count (p : Ball.t -> bool) (i : nat) (bs : list Ball.t) :
  List.length (filterRefs p i bs) = List.length (filter p bs).
Proof.
  revert i. induction bs as [|b rest IH]; intro i; simpl.
  - reflexivity.
  - destruct (p b); simpl; now rewrite IH.
Qed.

Lemma filter_release_all (h : HandName.t) (k : nat) (bs : list Ball.t) :
  filter (Ball.heldByIs h)
         (mapRank (Ball.heldByIs h) (fun _ b => Ball.set_heldBy None b) k bs)
  = [].
Proof.
  revert k. induction bs as [|b rest IH]; intro k; simpl.
  - reflexivity.
  - destruct (Ball.heldByIs h b) eqn:E; simpl.
    + apply IH.
    + rewrite E. apply IH.
Qed.

Lemma filter_release_one (p : Ball.t -> bool) (f : Ball.t -> Ball.t)
      (bs : list Ball.t) (i : nat) (b : Ball.t) :
  nth_error bs i = Some b -> p b = true -> p (f b) = false ->
  S (List.length (filter p (modify i f bs))) = List.length (filter p bs).
Proof.
  revert i. induction bs as [|a rest IH]; intros [|i] B T F; simpl in *;
    try discriminate.
  - injection B as ->. now rewrite T, F.
  - destruct (p a); simpl; now rewrite (IH i B T F).
Qed.

Lemma heldCount_ext (h : HandName.t) (bs cs : list Ball.t) :
  map (Ball.heldByIs h) bs = map (Ball.heldByIs h) cs ->
  heldCount h bs = heldCount h cs.
Proof.
  intro E. unfold heldCount. now rewrite (heldRefs_ext h bs cs E).
Qed.

Section HeldBalls.

Variable random : nat -> Q.
Variable targetBallCount : Z.

Lemma processHand_heldCount (now : Z) (h : HandName.t) (g : Game) :
  heldCount h (ballsRef (processHand random now h g))
  = if HandPosition.isPresent (Sides.get (handsRef g) h)
    then (heldCount h (ballsRef g) - if throwOccurs now h g then 1 else 0)%nat
    else 0%nat.
Proof.
  rewrite processHand_ballsRef. cbv zeta.
  destruct (HandPosition.isPresent (Sides.get (handsRef g) h)).
  - erewrite heldCount_ext; [| apply map_mapRank; reflexivity].
    destruct (throwOccurs now h g) eqn:T; [| lia].
    apply throwOccurs_true in T. destruct T as (_ & H & _).
    apply heldRefs_nonempty in H.
    destruct (lastRef_heldRefs h (ballsRef g) H) as (A & _).
    unfold heldByAt in A.
    destruct (nth_error (ballsRef g) (lastRef (heldRefs h (ballsRef g))))
      as [b|] eqn:B; [| discriminate].
    simpl in A. injection A as A. apply heldByIs_true in A.
    unfold heldCount, heldRefs. rewrite !filterRefs_count.
    rewrite <- (filter_release_one (Ball.heldByIs h)
                  (thrown random (Sides.get (handsRef g) h) (randomCalls g))
                  (ballsRef g) _ b B A) by (now destruct h).
    cbv iota. unfold heldRefs. lia.
  - unfold heldCount, heldRefs. rewrite filterRefs_count.
    now rewrite filter_release_all.
Qed.

Lemma resolver_heldCount (now : Z) (g : Game) (h : HandName.t) :
  heldCount h (ballsRef (resolver random now g))
  = if HandPosition.isPresent (Sides.get (handsRef g) h)
    then (heldCount h (ballsRef g) - if throwOccurs now h g then 1 else 0)%nat
    else 0%nat.
Proof.
  unfold resolver. destruct h.
  - rewrite (heldCount_ext HandName.left _ _
               (processHand_keeps_other random now HandName.left HandName.right
                                        _ ltac:(discriminate))).
    apply processHand_heldCount.
  - rewrite processHand_heldCount.
    rewrite processHand_handsRef, processHand_left_throwOccurs_right.
    unfold heldCount. now rewrite processHand_left_heldRefs_right.
Qed.

Lemma heldByAt_heldByIs (h : HandName.t) (bs : list Ball.t) (i : nat) :
  heldByAt bs i = Some (Some h)
  <-> nth_error (map (Ball.heldByIs h) bs) i = Some true.
Proof.
  rewrite nth_error_map. unfold heldByAt.
  destruct (nth_error bs i) as [b|]; simpl; [| split; discriminate].
  split; intro E; injection E as E; f_equal; now apply heldByIs_true.
Qed.

Lemma heldByAt_ext (h : HandName.t) (bs cs : list Ball.t) (i : nat) :
  map (Ball.heldByIs h) bs = map (Ball.heldByIs h) cs ->
  heldByAt bs i = Some (Some h) <-> heldByAt cs i = Some (Some h).
Proof.
  intro E. now rewrite !heldByAt_heldByIs, E.
Qed.

(** Which balls a hand holds after its own turn. *)
Lemma processHand_held (now : Z) (h : HandName.t) (g : Game) (i : nat) :
  heldByAt (ballsRef (processHand random now h g)) i = Some (Some h)
  <-> heldByAt (ballsRef g) i = Some (Some h)
      /\ HandPosition.isPresent (Sides.get (handsRef g) h) = true
      /\ ~ (throwOccurs now h g = true
            /\ i = lastRef (heldRefs h (ballsRef g))).
Proof.
  unfold heldByAt at 1 2.
  destruct (nth_error (ballsRef g) i) as [b|] eqn:B.
  - rewrite (processHand_ball random now h g i b B). cbv zeta. simpl option_map.
    destruct (Ball.heldByIs h b) eqn:E.
    + apply heldByIs_true in E.
      destruct (HandPosition.isPresent (Sides.get (handsRef g) h)).
      * destruct (throwOccurs now h g);
          destruct (Nat.eqb_spec i (lastRef (heldRefs h (ballsRef g)))) as [L | L];
          simpl; rewrite ?E; split; try tauto; try discriminate;
          try (intros (_ & _ & N); exfalso; apply N; split; [reflexivity | exact L]);
          intros _; repeat split; try reflexivity;
          intros (T & L'); congruence.
      * simpl. split; [discriminate | intros (_ & P & _); discriminate].
    + apply heldByIs_false in E. split.
      * intro K. exfalso. apply E. congruence.
      * intros (K & _). exfalso. apply E. congruence.
  - rewrite (processHand_ball_none random now h g i B). simpl.
    split; [discriminate | intros (K & _); discriminate].
Qed.

(** The resolver and the balls a hand holds.  A position of the array is
    held by hand [h] after the resolver step exactly when it was held by [h]
    before, [h] is present, and it is not the ball that [h] throws (the last
    position of the array held by [h], when the four conditions of a throw
    are met); the resolver gives no ball to a hand.  So a present hand holds
    one ball less when it throws, and a lost hand holds none. *)
Theorem resolver_held_balls (now : Z) (g : Game) (h : HandName.t) :
  (forall i,
      heldByAt (ballsRef (resolver random now g)) i = Some (Some h)
      <-> heldByAt (ballsRef g) i = Some (Some h)
          /\ HandPosition.isPresent (Sides.get (handsRef g) h) = true
          /\ ~ (throwOccurs now h g = true
                /\ i = lastRef (heldRefs h (ballsRef g))))
  /\ heldCount h (ballsRef (resolver random now g))
     = if HandPosition.isPresent (Sides.get (handsRef g) h)
       then (heldCount h (ballsRef g) - if throwOccurs now h g then 1 else 0)%nat
       else 0%nat.
Proof.
  split; [| apply resolver_heldCount].
  intro i. unfold resolver. destruct h.
  - rewrite (heldByAt_ext HandName.left _ _ i
               (processHand_keeps_other random now HandName.left HandName.right
                                        _ ltac:(discriminate))).
    apply processHand_held.
  - rewrite processHand_held.
    rewrite processHand_handsRef, processHand_left_throwOccurs_right,
      processHand_left_heldRefs_right.
    rewrite (heldByAt_ext HandName.right _ _ i
               (processHand_keeps_other random now HandName.right HandName.left
                                        _ ltac:(discriminate))).
    reflexivity.
Qed.

(** A ball in a present hand is not taken by the other hand: at the end of
    a frame processed while Playing it is still in that hand, or free. *)
Theorem present_hand_is_not_robbed (now idNow : Z) (g : Game) (h : HandName.t)
        (i : nat) (b : Ball.t) :
  gameStateRef g = PLAYING ->
  nth_error (ballsRef g) i = Some b ->
  Ball.heldBy b = Some h ->
  HandPosition.isPresent (Sides.get (handsRef g) h) = true ->
  heldByAt (ballsRef (updateGame random targetBallCount now idNow g)) i
  = Some (Some h)
  \/ heldByAt (ballsRef (updateGame random targetBallCount now idNow g)) i
     = Some None.
Proof.
  intros Pl B K P. rewrite (updateGame_playing _ _ now idNow g Pl).
  set (g1 := spawnStep random targetBallCount now idNow g).
  assert (B1 : nth_error (ballsRef g1) i = Some b) by (now apply spawnStep_nth).
  assert (P1 : HandPosition.isPresent (Sides.get (handsRef g1) h) = true).
  { subst g1. now rewrite spawnStep_handsRef. }
  destruct (nth_error (ballsRef (resolver random now g1)) i) as [br|] eqn:R.
  - destruct (physics_nth random (handsRef (resolver random now g1)) _
                          (randomCalls (resolver random now g1)) i br R)
      as (m & E).
    rewrite <- physicsStep_ballsRef in E. unfold heldByAt. rewrite E. simpl.
    destruct (resolver_ball_cases random now g1 i br R)
      as (b0 & B0 & [(F & ->) | (h0 & K0 & C)]);
      rewrite B1 in B0; injection B0 as <-; [congruence |].
    assert (h0 = h) by congruence. subst h0.
    destruct C as [(_ & V & n & ->) | [(_ & ->) | (A & _)]].
    + right. rewrite (stepBall_thrown random _ _ _ _ _ V). cbv zeta.
      destruct (Qltb _ _); [reflexivity |]. now rewrite bounce_heldBy.
    + left. rewrite stepBall_held by (simpl; congruence). simpl. now rewrite K.
    + congruence.
  - apply nth_error_None in R. rewrite resolver_length in R.
    apply nth_error_None in R. congruence.
Qed.

Lemma bounce_in_walls (b : Ball.t) :
  Ball.radius b <= 0.5 ->
  Ball.radius b <= Ball.x (bounce b) /\ Ball.x (bounce b) <= 1 - Ball.radius b.
Proof.
  intro H. unfold bounce.
  destruct (Qltb (Ball.x b) (Ball.radius b)
            || Qltb (1 - Ball.radius b) (Ball.x b)) eqn:T.
  - cbn. split.
    + apply Q.le_max_l.
    + apply Q.max_lub; [lra | apply Q.le_min_l].
  - apply orb_false_iff in T. destruct T as [A B].
    apply Qltb_ge in A, B. split; assumption.
Qed.

Lemma bounce_radius (b : Ball.t) : Ball.radius (bounce b) = Ball.radius b.
Proof.
  unfold bounce. now destruct (_ || _).
Qed.

(** At the end of a frame processed while Playing, every ball that no hand
    holds is between the walls and not below the floor line: for a radius
    of at most 0.2 and [Math.random()] in [0, 1), its [x] is in
    [radius, 1 - radius] and its [y] is at most 1.2. *)
Theorem free_ball_is_in_the_box (now idNow : Z) (g : Game) (i : nat) (b' : Ball.t) :
  (forall n, 0 <= random n /\ random n < 1) ->
  gameStateRef g = PLAYING ->
  nth_error (ballsRef (updateGame random targetBallCount now idNow g)) i = Some b' ->
  Ball.heldBy b' = None ->
  Ball.radius b' <= 0.2 ->
  Ball.radius b' <= Ball.x b' /\ Ball.x b' <= 1 - Ball.radius b'
  /\ Ball.y b' <= 1.2.
Proof.
  intros Rg Pl E F Rad. rewrite (updateGame_playing _ _ now idNow g Pl) in E.
  destruct (physicsStep_ball_inv random _ i b' E) as (br & m & Br & ->).
  destruct (Ball.heldBy br) as [h|] eqn:K.
  - rewrite stepBall_held in F by congruence. congruence.
  - rewrite (stepBall_free random _ _ _ K) in *. cbv zeta in *.
    set (c := bounce (integrate br)) in *.
    destruct (Qltb 1.2 (Ball.y (integrate br))) eqn:Fl.
    + cbn in *. pose proof (Rg m) as [R0 R1]. repeat split; lra.
    + apply Qltb_ge in Fl.
      destruct (catchChecks_cases (handsRef (resolver random now
                  (spawnStep random targetBallCount now idNow g))) c)
        as [C | (h & _ & _ & C)]; rewrite C in *; [| discriminate].
      assert (Rc : Ball.radius c <= 0.5) by lra.
      unfold c in Rc. rewrite bounce_radius in Rc.
      destruct (bounce_in_walls (integrate br)) as [W1 W2].
      { exact Rc. }
      unfold c. rewrite bounce_radius, bounce_y. repeat split; assumption.
Qed.

End HeldBalls.

(** ** Starting the game *)

Section StartGame.

Variable random : nat -> Q.

Lemma resetBalls_nth (bs : list Ball.t) (n i : nat) (b : Ball.t) :
  nth_error bs i = Some b ->
  exists m,
    nth_error (fst (resetBalls random n bs)) i
    = Some (if offScreen b then respawnBall random m b else b).
Proof.
  revert n i. induction bs as [|a rest IH]; intros n [|i] H; simpl in H;
    try discriminate.
  - injection H as ->. exists n. simpl.
    destruct (offScreen b);
      destruct (resetBalls random _ rest) as [rest' n'']; reflexivity.
  - simpl.
    destruct (if offScreen a then (respawnBall random n a, (n + 2)%nat) else (a, n))
      as [a' n'].
    destruct (IH n' i H) as (m & E). exists m.
    destruct (resetBalls random n' rest) as [rest' n'']. exact E.
Qed.

Lemma resetBalls_length (bs : list Ball.t) (n : nat) :
  List.length (fst (resetBalls random n bs)) = List.length bs.
Proof.
  revert n. induction bs as [|a rest IH]; intro n; simpl.
  - reflexivity.
  - destruct (if offScreen a then (respawnBall random n a, (n + 2)%nat) else (a, n))
      as [a' n'].
    specialize (IH n'). destruct (resetBalls random n' rest) as [rest' n''].
    simpl in *. now rewrite IH.
Qed.

Lemma startGame_ballsRef (g : Game) :
  ballsRef (startGame random g) = fst (resetBalls random (randomCalls g) (ballsRef g)).
Proof.
  unfold startGame. cbn. now destruct (resetBalls random _ _).
Qed.

Lemma offScreen_false (b : Ball.t) :
  offScreen b = false <-> -0.2 <= Ball.y b /\ Ball.y b <= 1.
Proof.
  unfold offScreen. rewrite orb_false_iff, !Qltb_ge. tauto.
Qed.

Lemma startGame_spec (g : Game) :
  gameStateRef (startGame random g) = PLAYING
  /\ scoreRef (startGame random g) = 0%Z
  /\ handsRef (startGame random g) = handsRef g
  /\ lastSpawnTimeRef (startGame random g) = lastSpawnTimeRef g
  /\ throwCooldowns (startGame random g) = throwCooldowns g
  /\ List.length (ballsRef (startGame random g)) = List.length (ballsRef g)
  /\ forall i b,
      nth_error (ballsRef g) i = Some b ->
      exists b',
        nth_error (ballsRef (startGame random g)) i = Some b'
        /\ identity b' = identity b
        /\ (-0.2 <= Ball.y b' /\ Ball.y b' <= 1)
        /\ ((-0.2 <= Ball.y b /\ Ball.y b <= 1) -> b' = b)
        /\ (~ (-0.2 <= Ball.y b /\ Ball.y b <= 1) ->
            Ball.y b' = -0.2 /\ Ball.vy b' = 0 /\ Ball.heldBy b' = None).
Proof.
  assert (F : forall (P : Game -> Prop),
             (forall bs n, P (set_randomCalls n
                                (set_ballsRef bs
                                   (set_gameStateRef PLAYING (set_scoreRef 0 g))))) ->
             P (startGame random g)).
  { intros P H. unfold startGame. cbv zeta.
    destruct (resetBalls random _ _). apply H. }
  split; [apply F; reflexivity |]. split; [apply F; reflexivity |].
  split; [apply F; reflexivity |]. split; [apply F; reflexivity |].
  split; [apply F; reflexivity |].
  rewrite startGame_ballsRef.
  split; [apply resetBalls_length |].
  intros i b B.
  destruct (resetBalls_nth (ballsRef g) (randomCalls g) i b B) as (m & E).
  rewrite E. eexists. split; [reflexivity |].
  destruct (offScreen b) eqn:O.
  - split; [reflexivity |]. split; [cbn; split; lra |].
    split.
    + intro In. apply offScreen_false in In. congruence.
    + intros _. repeat split.
  - apply offScreen_false in O. split; [reflexivity |]. split; [exact O |].
    split; [reflexivity |]. intro N. contradiction.
Qed.

(** [startGame] puts the session in the Playing state with a score of 0
    and leaves the hands and the two timers alone.  It keeps every ball in
    place in the array; a ball whose [y] is in [-0.2, 1] is untouched, any
    other ball is respawned at [y = -0.2], released and stopped vertically,
    so that afterwards every ball has its [y] in [-0.2, 1]. *)
Theorem startGame_clears_the_screen (g : Game) :
  gameStateRef (startGame random g) = PLAYING
  /\ scoreRef (startGame random g) = 0%Z
  /\ handsRef (startGame random g) = handsRef g
  /\ lastSpawnTimeRef (startGame random g) = lastSpawnTimeRef g
  /\ throwCooldowns (startGame random g) = throwCooldowns g
  /\ List.length (ballsRef (startGame random g)) = List.length (ballsRef g)
  /\ forall i b,
      nth_error (ballsRef g) i = Some b ->
      exists b',
        nth_error (ballsRef (startGame random g)) i = Some b'
        /\ identity b' = identity b
        /\ (-0.2 <= Ball.y b' /\ Ball.y b' <= 1)
        /\ ((-0.2 <= Ball.y b /\ Ball.y b <= 1) -> b' = b)
        /\ (~ (-0.2 <= Ball.y b /\ Ball.y b <= 1) ->
            Ball.y b' = -0.2 /\ Ball.vy b' = 0 /\ Ball.heldBy b' = None).
Proof.
  exact (startGame_spec g).
Qed.

(** Pressing start a second time moves no ball: after [startGame] every
    ball is on the screen. *)
Theorem startGame_twice (g : Game) :
  ballsRef (startGame random (startGame random g)) = ballsRef (startGame random g)
  /\ scoreRef (startGame random (startGame random g)) = 0%Z.
Proof.
  split; [| apply startGame_spec].
  assert (K : forall bs n,
             (forall b, In b bs -> offScreen b = false) ->
             fst (resetBalls random n bs) = bs).
  { induction bs as [|a rest IH]; intros n H; simpl.
    - reflexivity.
    - rewrite (H a (or_introl eq_refl)).
      specialize (IH n (fun b I => H b (or_intror I))).
      destruct (resetBalls random n rest) as [rest' n']. simpl in *.
      now rewrite IH. }
  rewrite (startGame_ballsRef (startGame random g)). apply K.
  intros b' I. apply In_nth_error in I. destruct I as (i & I).
  destruct (nth_error (ballsRef g) i) as [b|] eqn:B.
  - destruct (proj2 (proj2 (proj2 (proj2 (proj2 (proj2
               (startGame_spec g)))))) i b B)
      as (c & C & _ & Y & _).
    rewrite I in C. injection C as <-. now apply offScreen_false.
  - apply nth_error_None in B.
    assert (L : (i < List.length (ballsRef (startGame random g)))%nat).
    { apply nth_error_Some. congruence. }
    rewrite startGame_ballsRef, resetBalls_length in L. lia.
Qed.

End StartGame.

(** ** A ball that nothing disturbs *)

Section FreeBall.

Variable random : nat -> Q.
Variable targetBallCount : Z.

(** With no hand in view, a free ball whose next position is between the
    walls and not below the floor line goes through the body of the physics
    loop without a bounce, a catch, a respawn or a call of
    [Math.random()]. *)
Lemma stepBall_undisturbed (hands : Sides.t HandPosition.t) (m : nat) (b : Ball.t) :
  Ball.heldBy b = None ->
  HandPosition.isPresent (Sides.left hands) = false ->
  HandPosition.isPresent (Sides.right hands) = false ->
  Ball.radius b <= Ball.x b + Ball.vx b ->
  Ball.x b + Ball.vx b <= 1 - Ball.radius b ->
  Ball.y b + (Ball.vy b + GRAVITY) <= 1.2 ->
  stepBall random hands m b = (integrate b, m).
Proof.
  intros F L R W1 W2 Y.
  unfold stepBall. rewrite (proj2 (isHeld_false _)) by exact F. cbv zeta.
  assert (B : bounce (integrate b) = integrate b).
  { unfold bounce.
    change (Ball.radius (integrate b)) with (Ball.radius b).
    change (Ball.x (integrate b)) with (Ball.x b + Ball.vx b).
    rewrite (proj2 (Qltb_ge _ _) W1), (proj2 (Qltb_ge _ _) W2). reflexivity. }
  rewrite B. unfold catchChecks, checkHandCatch. rewrite L, R. simpl negb.
  cbn [orb].
  change (Ball.y (integrate b)) with (Ball.y b + (Ball.vy b + GRAVITY)).
  now rewrite (proj2 (Qltb_ge _ _) Y).
Qed.

(** One frame of a ball that nothing disturbs.  In a frame processed while
    Playing with no hand present, a free ball whose next position
    [x + vx] is in [radius, 1 - radius] and whose next height
    [y + (vy + GRAVITY)] is at most 1.2 ends the frame at the same place of
    the array, free, with [vy + GRAVITY] as vertical velocity, with its
    height advanced by that new velocity and its [x] by [vx]; [vx] and the
    identity of the ball are unchanged. *)
Theorem undisturbed_ball_frame (now idNow : Z) (g : Game) (i : nat) (b : Ball.t) :
  gameStateRef g = PLAYING ->
  nth_error (ballsRef g) i = Some b ->
  Ball.heldBy b = None ->
  HandPosition.isPresent (Sides.left (handsRef g)) = false ->
  HandPosition.isPresent (Sides.right (handsRef g)) = false ->
  Ball.radius b <= Ball.x b + Ball.vx b ->
  Ball.x b + Ball.vx b <= 1 - Ball.radius b ->
  Ball.y b + (Ball.vy b + GRAVITY) <= 1.2 ->
  exists b',
    nth_error (ballsRef (updateGame random targetBallCount now idNow g)) i
    = Some b'
    /\ Ball.vy b' = Ball.vy b + GRAVITY
    /\ Ball.y b' = Ball.y b + (Ball.vy b + GRAVITY)
    /\ Ball.x b' = Ball.x b + Ball.vx b
    /\ Ball.vx b' = Ball.vx b
    /\ Ball.heldBy b' = None
    /\ identity b' = identity b.
Proof.
  intros Pl B F L R W1 W2 Y. rewrite (updateGame_playing _ _ now idNow g Pl).
  set (g1 := spawnStep random targetBallCount now idNow g).
  assert (B1 : nth_error (ballsRef g1) i = Some b) by (now apply spawnStep_nth).
  assert (H1 : handsRef (resolver random now g1) = handsRef g).
  { subst g1. now rewrite resolver_handsRef, spawnStep_handsRef. }
  assert (BR : nth_error (ballsRef (resolver random now g1)) i = Some b).
  { destruct (nth_error (ballsRef (resolver random now g1)) i) as [br|] eqn:E.
    - destruct (resolver_ball_cases random now g1 i br E)
        as (b0 & B0 & [(_ & ->) | (h0 & K0 & _)]);
        rewrite B1 in B0; injection B0 as <-; [reflexivity | congruence].
    - apply nth_error_None in E. rewrite resolver_length in E.
      apply nth_error_None in E. congruence. }
  destruct (physics_nth random (handsRef (resolver random now g1)) _
                        (randomCalls (resolver random now g1)) i b BR)
    as (m & E).
  rewrite <- physicsStep_ballsRef in E.
  rewrite stepBall_undisturbed in E by (rewrite ?H1; assumption).
  exists (integrate b). split; [exact E |]. repeat split; try exact F.
Qed.

End FreeBall.

(** ** The coach service *)

Lemma orElse_not_empty (text : option string) (fallback : string) :
  fallback <> ""%string -> Coach.orElse text fallback <> ""%string.
Proof.
  intro F. unfold Coach.orElse. destruct text as [t|]; [| exact F].
  destruct (String.eqb t "") eqn:E; [exact F |]. now apply String.eqb_neq.
Qed.


(** ** The tracker and the engine together *)

Section TrackedFrames.

Variable random : nat -> Q.
Variable targetBallCount : Z.

(** A hand that a frame does not detect holds no ball when the frame ends,
    if the game is running and the canvas is there. *)
Theorem unseen_hand_holds_nothing (f : Frame) (g g' : Game) (h : HandName.t) :
  frameStep random targetBallCount f g = Some g' ->
  canvas f = true ->
  gameStateRef g = PLAYING ->
  lastDetection h (detectionsOf (results f)) = None ->
  forall j, heldByAt (ballsRef g') j <> Some (Some h).
Proof.
  intros E C Pl L.
  destruct (frameStep_inv random targetBallCount f g g' E) as (hands & T & ->).
  pose proof (trackHands_spec _ _ _ h T) as S. rewrite L in S.
  unfold draw. rewrite C.
  rewrite (updateGame_playing random targetBallCount (now f) (idNow f)
                              (set_handsRef hands g) Pl).
  apply (lost_hand_resolver random (now f) _ h).
  rewrite spawnStep_handsRef. simpl. now rewrite S.
Qed.

(** When a hand is detected again, its velocity is measured from where it
    was last seen, however many frames ago that was. *)
Theorem redetected_hand_velocity (frames : list Frame) (f : Frame)
        (g g1 g2 : Game) (h : HandName.t) (lms : list Landmark) (palm : Landmark) :
  (forall f', In f' frames ->
              lastDetection h (detectionsOf (results f')) = None) ->
  run random targetBallCount frames g = Some g1 ->
  frameStep random targetBallCount f g1 = Some g2 ->
  lastDetection h (detectionsOf (results f)) = Some lms ->
  nth_error lms 9 = Some palm ->
  HandPosition.isPresent (Sides.get (handsRef g2) h) = true
  /\ HandPosition.vx (Sides.get (handsRef g2) h)
     = lx palm - HandPosition.x (Sides.get (handsRef g) h)
  /\ HandPosition.vy (Sides.get (handsRef g2) h)
     = ly palm - HandPosition.y (Sides.get (handsRef g) h).
Proof.
  intros L R E D P.
  assert (K : HandPosition.x (Sides.get (handsRef g1) h)
              = HandPosition.x (Sides.get (handsRef g) h)
              /\ HandPosition.y (Sides.get (handsRef g1) h)
                 = HandPosition.y (Sides.get (handsRef g) h)).
  { destruct frames as [|f0 rest].
    - simpl in R. injection R as <-. split; reflexivity.
    - rewrite (unseen_hand_frozen random targetBallCount (f0 :: rest) g g1 h
                                   ltac:(discriminate) L R).
      split; reflexivity. }
  pose proof (frameStep_handsRef random targetBallCount f g1 g2 E) as T.
  pose proof (trackHands_spec _ _ _ h T) as S. rewrite D in S.
  destruct S as (p & P' & ->). assert (p = palm) by congruence. subst p.
  destruct K as (KX & KY). unfold tracked. simpl. rewrite KX, KY.
  repeat split.
Qed.

End TrackedFrames.

(** Through [onResults], whose [updateGame] reads the initial
    [targetBallCount], a frame never brings the array above three balls. *)
Theorem onResults_population (random : nat -> Q) (c : bool) (now idNow : Z)
        (r : Results) (g g' : Game) :
  onResults random c now idNow r g = Some g' ->
  (List.length (ballsRef g) <= List.length (ballsRef g')
   <= Nat.max (List.length (ballsRef g)) 3)%nat.
Proof.
  intro E.
  change (frameStep random initialTargetBallCount (mkFrame c now idNow r) g
          = Some g') in E.
  destruct (frameStep_population random initialTargetBallCount _ g g' E)
    as (added & M & _ & B).
  apply (f_equal (@List.length _)) in M.
  rewrite length_app, !length_map in M.
  unfold initialTargetBallCount in B. lia.
Qed.

(** ** The reach of a hand *)

(** A catch only happens within reach: the ball is less than
    [radius + HAND_RADIUS / 2] from the palm horizontally and less than 4/3
    of that vertically, and it is not rising faster than 0.01 a frame.  And
    a free ball right on the palm of a present hand, not rising that fast,
    is caught, when its radius is above -0.05. *)
Theorem catch_reach (ball : Ball.t) (hand : HandPosition.t) (h : HandName.t) :
  let reach := Ball.radius ball + HAND_RADIUS / 2 in
  let dx := Ball.x ball - HandPosition.x hand in
  let dy := Ball.y ball - HandPosition.y hand in
  (Ball.heldBy ball = None ->
   Ball.heldBy (checkHandCatch ball hand h) = Some h ->
   HandPosition.isPresent hand = true
   /\ (- reach < dx /\ dx < reach)
   /\ (- reach < dy * 0.75 /\ dy * 0.75 < reach)
   /\ -0.01 < Ball.vy ball)
  /\ (Ball.heldBy ball = None ->
      HandPosition.isPresent hand = true ->
      dx == 0 -> dy == 0 -> 0 < reach -> -0.01 < Ball.vy ball ->
      checkHandCatch ball hand h = caught h ball).
Proof.
  cbv zeta. split.
  - intros F H. unfold checkHandCatch in H.
    destruct (HandPosition.isPresent hand); simpl in H; [| congruence].
    rewrite (proj2 (isHeld_false ball) F) in H.
    destruct (sqrt_ltb _ _) eqn:S; [| congruence].
    destruct (Qltb (-0.01) (Ball.vy ball)) eqn:V; [| congruence].
    apply sqrt_ltb_spec in S. destruct S as (R0 & S). apply Qltb_lt in V.
    split; [reflexivity |].
    set (reach := Ball.radius ball + HAND_RADIUS / 2) in *.
    set (dx := Ball.x ball - HandPosition.x hand) in *.
    set (dy := (Ball.y ball - HandPosition.y hand) * 0.75) in *.
    repeat split; try exact V; nra.
  - intros F P X Y R V. unfold checkHandCatch. rewrite P.
    rewrite (proj2 (isHeld_false ball) F). simpl.
    assert (S : sqrt_ltb
                  ((Ball.x ball - HandPosition.x hand)
                   * (Ball.x ball - HandPosition.x hand)
                   + (Ball.y ball - HandPosition.y hand) * 0.75
                     * ((Ball.y ball - HandPosition.y hand) * 0.75))
                  (Ball.radius ball + HAND_RADIUS / 2) = true).
    { apply sqrt_ltb_spec. split; [exact R |].
      set (reach := Ball.radius ball + HAND_RADIUS / 2) in *.
      set (dx := Ball.x ball - HandPosition.x hand) in *.
      set (dy := Ball.y ball - HandPosition.y hand) in *.
      assert (Z1 : dx * dx + dy * 0.75 * (dy * 0.75) == 0).
      { rewrite X, Y. ring. }
      rewrite Z1. nra. }
    rewrite S. apply Qltb_lt in V. now rewrite V.
Qed.

(** ** Concrete runs *)

Lemma run_score_witness :
  exists g',
    run Sample.random initialTargetBallCount Demo.session Sample.start = Some g'
    /\ scoreRef g' = 10%Z
    /\ gameStateRef g' = PLAYING.
Proof.
  eexists. split; [vm_compute; reflexivity |]. split; [reflexivity |].
  match goal with
  | |- gameStateRef ?x = _ =>
      exact (proj1 (run_score Sample.random initialTargetBallCount Demo.session
                              Sample.start x eq_refl))
  end.
Defined.

Lemma run_population_witness :
  exists g' added,
    run Sample.random initialTargetBallCount
        [Demo.frameAt 501 Demo.noHands; Demo.frameAt 1002 Demo.noHands]
        Sample.empty = Some g'
    /\ List.length (ballsRef g') = 2%nat
    /\ map identity (ballsRef g') = map identity (ballsRef Sample.empty) ++ added.
Proof.
  eexists. 
  match goal with
  | |- exists a, ?r = Some ?x /\ _ =>
      assert (E : r = Some x) by (vm_compute; reflexivity)
  end.
  destruct (run_population _ _ _ _ _ E) as (added & M & _).
  exists added. split; [exact E |]. split; [reflexivity | exact M].
Defined.

Lemma no_spawn_within_500ms_witness :
  exists g',
    run Sample.random initialTargetBallCount Demo.blind Sample.empty = Some g'
    /\ List.length (ballsRef g') = 0%nat.
Proof.
  eexists.
  match goal with
  | |- ?r = Some ?x /\ _ =>
      assert (E : r = Some x) by (vm_compute; reflexivity)
  end.
  split; [exact E |].
  refine (proj1 (no_spawn_within_500ms _ _ Demo.blind Sample.empty _ _ E)).
  intros f [<- | [<- | []]]; simpl; lia.
Defined.

Lemma no_throw_within_cooldown_witness :
  exists g',
    run Sample.random initialTargetBallCount Demo.earlyFlick Sample.holding = Some g'
    /\ HandPosition.vy (Sides.left (handsRef g')) == -0.2
    /\ Sides.get (throwCooldowns g') HandName.left = 0%Z.
Proof.
  eexists.
  match goal with
  | |- ?r = Some ?x /\ _ =>
      assert (E : r = Some x) by (vm_compute; reflexivity)
  end.
  split; [exact E |]. split; [reflexivity |].
  refine (proj1 (no_throw_within_cooldown _ _ Demo.earlyFlick Sample.holding _
                                          HandName.left _ E)).
  intros f [<- | []]. simpl. unfold THROW_COOLDOWN. lia.
Defined.

Lemma idle_run_only_tracks_hands_witness :
  exists g',
    run Sample.random initialTargetBallCount Demo.session Demo.parked = Some g'
    /\ ballsRef g' = ballsRef Demo.parked
    /\ scoreRef g' = 70%Z.
Proof.
  eexists.
  match goal with
  | |- ?r = Some ?x /\ _ =>
      assert (E : r = Some x) by (vm_compute; reflexivity)
  end.
  split; [exact E |].
  rewrite (idle_run_only_tracks_hands _ _ Demo.session Demo.parked _ eq_refl E).
  split; reflexivity.
Defined.

Lemma lost_hand_is_frozen_witness :
  exists g',
    run Sample.random initialTargetBallCount Demo.blind Sample.holding = Some g'
    /\ Sides.left (handsRef g') = absent Sample.sideways.
Proof.
  eexists.
  match goal with
  | |- ?r = Some ?x /\ _ =>
      assert (E : r = Some x) by (vm_compute; reflexivity)
  end.
  split; [exact E |].
  refine (lost_hand_is_frozen _ _ Demo.blind Sample.holding _ HandName.left
                              _ _ E).
  - discriminate.
  - intros f [<- | [<- | []]]; reflexivity.
Defined.

Lemma unseen_hand_holds_nothing_witness :
  exists g',
    frameStep Sample.random initialTargetBallCount
              (Demo.frameAt 300 Demo.noHands) Sample.holding = Some g'
    /\ heldByAt (ballsRef g') 0 <> Some (Some HandName.left).
Proof.
  eexists.
  match goal with
  | |- ?r = Some ?x /\ _ =>
      assert (E : r = Some x) by (vm_compute; reflexivity)
  end.
  split; [exact E |].
  exact (unseen_hand_holds_nothing _ _ _ Sample.holding _ HandName.left
                                   E eq_refl eq_refl eq_refl 0%nat).
Defined.

Lemma redetected_hand_velocity_witness :
  exists g1 g2,
    run Sample.random initialTargetBallCount Demo.blind Sample.holding = Some g1
    /\ frameStep Sample.random initialTargetBallCount
                 (Demo.frameAt 500 (Sample.leftAt 0.3 0.5)) g1 = Some g2
    /\ HandPosition.vx (Sides.left (handsRef g2)) = 0.3 - 0.1.
Proof.
  do 2 eexists.
  match goal with
  | |- ?r = Some ?x /\ ?r2 = Some ?y /\ _ =>
      assert (E : r = Some x) by (vm_compute; reflexivity);
      assert (E2 : r2 = Some y) by (vm_compute; reflexivity)
  end.
  split; [exact E |]. split; [exact E2 |].
  refine (proj1 (proj2 (redetected_hand_velocity
                          _ _ Demo.blind _ Sample.holding _ _ HandName.left
                          _ _ _ E E2 eq_refl eq_refl))).
  intros f [<- | [<- | []]]; reflexivity.
Defined.

Lemma onResults_population_witness :
  exists g',
    onResults Sample.random true 501 501 Demo.noHands Sample.empty = Some g'
    /\ (List.length (ballsRef g') <= 3)%nat.
Proof.
  eexists.
  match goal with
  | |- ?r = Some ?x /\ _ =>
      assert (E : r = Some x) by (vm_compute; reflexivity)
  end.
  split; [exact E |].
  exact (proj2 (onResults_population _ _ _ _ _ _ _ E)).
Defined.

Lemma present_hand_is_not_robbed_witness :
  heldByAt (ballsRef (Sample.frame 1016 Sample.holding)) 0
  = Some (Some HandName.left)
  \/ heldByAt (ballsRef (Sample.frame 1016 Sample.holding)) 0 = Some None.
Proof.
  exact (present_hand_is_not_robbed Sample.random initialTargetBallCount
                                    1016 1016 Sample.holding HandName.left
                                    0 Sample.heldA eq_refl eq_refl eq_refl eq_refl).
Defined.

Lemma free_ball_is_in_the_box_witness :
  exists b',
    nth_error (ballsRef (Sample.frame 1016 Sample.holding)) 2 = Some b'
    /\ Ball.heldBy b' = None
    /\ (BALL_RADIUS <= Ball.x b' /\ Ball.x b' <= 1 - BALL_RADIUS /\ Ball.y b' <= 1.2).
Proof.
  eexists. split; [reflexivity |]. split; [reflexivity |].
  refine (free_ball_is_in_the_box Sample.random initialTargetBallCount
                                  1016 1016 Sample.holding 2 _
                                  sample_random_range eq_refl eq_refl eq_refl _).
  discriminate.
Defined.

(** ** The shape of the stack *)

Lemma rank_zero (h : HandName.t) (bs : list Ball.t) : rank h bs 0 = 0%nat.
Proof. reflexivity. Qed.

Lemma rank_lt (h : HandName.t) (bs : list Ball.t) (i j : nat) (b : Ball.t) :
  (i < j)%nat -> nth_error bs i = Some b -> Ball.heldByIs h b = true ->
  (rank h bs i < rank h bs j)%nat.
Proof.
  revert i j. induction bs as [|a rest IH]; intros [|i] [|j] L B H;
    simpl in B; try discriminate; try lia.
  - injection B as ->. rewrite rank_zero, rank_cons, H. lia.
  - rewrite !rank_cons. assert (i < j)%nat by lia.
    pose proof (IH i j H0 B H). lia.
Qed.

Section Stack.

Variable random : nat -> Q.

(** After the resolver step the balls of a hand are stacked in array order:
    of two balls of the same radius in the same hand, the later one in the
    array has the same [x] and sits higher on the screen, as long as the
    earlier one is below the top slot; from the slot [MAX_STACK_HEIGHT] on
    they are at the same place. *)
Theorem stack_shape (now : Z) (g : Game) (h : HandName.t) (i j : nat)
        (bi bj : Ball.t) :
  (i < j)%nat ->
  nth_error (ballsRef (resolver random now g)) i = Some bi ->
  nth_error (ballsRef (resolver random now g)) j = Some bj ->
  Ball.heldBy bi = Some h ->
  Ball.heldBy bj = Some h ->
  Ball.radius bj = Ball.radius bi ->
  0 < Ball.radius bi ->
  Ball.x bj = Ball.x bi
  /\ ((rank h (ballsRef (resolver random now g)) i < MAX_STACK_HEIGHT)%nat ->
      Ball.y bj < Ball.y bi)
  /\ ((MAX_STACK_HEIGHT <= rank h (ballsRef (resolver random now g)) i)%nat ->
      Ball.y bj = Ball.y bi).
Proof.
  intros L Bi Bj Hi Hj R Pos.
  assert (P : forall k b,
             nth_error (ballsRef (resolver random now g)) k = Some b ->
             Ball.heldBy b = Some h ->
             Ball.x b = HandPosition.x (Sides.get (handsRef g) h)
             /\ Ball.y b
                = HandPosition.y (Sides.get (handsRef g) h) - 0.05
                  - inject_Z (Z.of_nat
                                (Nat.min (rank h (ballsRef (resolver random now g)) k)
                                         MAX_STACK_HEIGHT))
                    * (Ball.radius b * 1.2)).
  { intros k b B H.
    destruct (resolver_ball_cases random now g k b B)
      as (b0 & B0 & [(F & ->) | (h0 & K & [(_ & V & n & ->) | [(_ & ->) | (_ & ->)]])]);
      try (simpl in H; congruence).
    assert (h0 = h) by (simpl in H; congruence). subst h0.
    split; reflexivity. }
  destruct (P i bi Bi Hi) as (Xi & Yi). destruct (P j bj Bj Hj) as (Xj & Yj).
  assert (Lt : (rank h (ballsRef (resolver random now g)) i
                < rank h (ballsRef (resolver random now g)) j)%nat).
  { apply (rank_lt h _ i j bi L Bi). now apply heldByIs_true. }
  split; [congruence |]. rewrite Yi, Yj, R. unfold MAX_STACK_HEIGHT in *.
  set (ri := rank h (ballsRef (resolver random now g)) i) in *.
  set (rj := rank h (ballsRef (resolver random now g)) j) in *.
  split; intro C.
  - assert (M : (Nat.min ri 4 < Nat.min rj 4)%nat) by lia.
    assert (Q1 : inject_Z (Z.of_nat (Nat.min ri 4)) + 1
                 <= inject_Z (Z.of_nat (Nat.min rj 4))).
    { rewrite <- (inject_Z_plus _ 1). rewrite <- Zle_Qle. lia. }
    nra.
  - replace (Nat.min rj 4) with (Nat.min ri 4) by lia. reflexivity.
Qed.

End Stack.

Lemma stack_shape_witness :
  exists bi bj,
    nth_error (ballsRef (resolver Sample.random 1016 Sample.holding)) 0 = Some bi
    /\ nth_error (ballsRef (resolver Sample.random 1016 Sample.holding)) 1 = Some bj
    /\ Ball.y bj < Ball.y bi.
Proof.
  do 2 eexists. split; [reflexivity |]. split; [reflexivity |].
  refine (proj1 (proj2 (stack_shape Sample.random 1016 Sample.holding
                                    HandName.left 0 1 _ _ _ eq_refl eq_refl
                                    eq_refl eq_refl eq_refl eq_refl)) _).
  - lia.
  - unfold MAX_STACK_HEIGHT. change (rank _ _ 0) with 0%nat. lia.
Defined.

Lemma catch_reach_witness :
  let ball := integrate Sample.ballB in
  let hand := HandPosition.mk 0.5 0.5 0.5 0.5 true in
  (Ball.y ball - HandPosition.y hand) * 0.75 < Ball.radius ball + HAND_RADIUS / 2
  /\ -0.01 < Ball.vy ball.
Proof.
  intros ball hand.
  destruct (proj1 (catch_reach ball hand HandName.left) eq_refl eq_refl)
    as (_ & _ & (_ & D) & V).
  split; [exact D | exact V].
Defined.

(** A frame of the fall of [Sample.ballC] with no hand in view. *)
Lemma undisturbed_ball_frame_witness :
  exists b',
    nth_error (ballsRef (Sample.frame 16 Sample.start)) 2 = Some b'
    /\ Ball.vy b' = Ball.vy Sample.ballC + GRAVITY
    /\ Ball.y b' = Ball.y Sample.ballC + (Ball.vy Sample.ballC + GRAVITY).
Proof.
  destruct (undisturbed_ball_frame Sample.random initialTargetBallCount 16 16
              Sample.start 2 Sample.ballC)
    as (b' & E & V & Y & _);
    try reflexivity; try (unfold Qle; simpl; lia).
  exists b'. split; [exact E |]. split; [exact V | exact Y].
Defined.
